(** * ThinQ select platform (custom_components/smartthinq_sensors/select.py)

    A shallow embedding of the select-entity adapter: the descriptor
    tables, the existence predicate, the discovery handler and the
    [LGESelect] entity class, followed by the properties stated about
    them.

    Python objects are modelled as follows.
    - Scalar values reported by a device are elements of [pyval]; the
      builtins the lambdas apply to them ([bool], [int], [str],
      [isinstance(_, int)], [==], dict lookup) are written out below with
      the exceptions they raise.
    - A call that may raise returns a [result]; the awaited device
      write runs in the state-and-exception monad [M] over the device
      object and the trace of calls issued to it.
    - An entity is the record of its attributes; the device object its
      [_api] attribute refers to is nested in it, and a device-side change
      replaces that component. *)

From stdpp Require Import base option list strings gmap pretty.
From Stdlib Require Import ZArith Lia Ascii String.

Local Open Scope string_scope.

(** ** Exceptions and results *)

Inductive exn : Type :=
| TypeError
| ValueError
| KeyError
| AttributeError
| DeviceError (msg : string).

Inductive result (A : Type) : Type :=
| Ok (a : A)
| Raise (e : exn).
Arguments Ok {A} a.
Arguments Raise {A} e.

Global Instance exn_eq_dec : EqDecision exn.
Proof. solve_decision. Defined.

Global Instance result_ret : MRet result := λ A a, Ok a.
Global Instance result_bind : MBind result := λ A B f r,
  match r with
  | Ok a => f a
  | Raise e => Raise e
  end.
Global Instance result_fmap : FMap result := λ A B f r,
  match r with
  | Ok a => Ok (f a)
  | Raise e => Raise e
  end.

(** ** Python scalar values

    The values a device reports as a current mode or as an entry of a
    capability list.  [PyIntEnum c m z] is the member [m] of an [IntEnum]
    class [c] with value [z]; [PyEnum c m] is a member of a plain [Enum]
    class.  All of them are hashable; floats and containers are not
    part of this type. *)

Inductive pyval : Type :=
| PyNone
| PyBool (b : bool)
| PyInt (z : Z)
| PyStr (s : string)
| PyIntEnum (cls member : string) (z : Z)
| PyEnum (cls member : string).

Global Instance pyval_eq_dec : EqDecision pyval.
Proof. solve_decision. Defined.

(** [isinstance(v, int)]: [bool] and [IntEnum] are subclasses of [int]. *)
Definition isinstance_int (v : pyval) : bool :=
  match v with
  | PyBool _ | PyInt _ | PyIntEnum _ _ _ => true
  | _ => false
  end.

(** The numeric value of an [int] instance (0 for the others, which the
    callers exclude by [isinstance_int]). *)
Definition int_value (v : pyval) : Z :=
  match v with
  | PyBool b => Z.b2z b
  | PyInt z => z
  | PyIntEnum _ _ z => z
  | _ => 0%Z
  end.

(** [bool(v)] *)
Definition py_truthy (v : pyval) : bool :=
  match v with
  | PyNone => false
  | PyBool b => b
  | PyInt z => negb (z =? 0)%Z
  | PyStr s => negb (bool_decide (s = ""))
  | PyIntEnum _ _ z => negb (z =? 0)%Z
  | PyEnum _ _ => true
  end.

(** [str(v)].  Since Python 3.11 [IntEnum.__str__] is [int.__repr__], so
    a member prints as its number. *)
Definition py_str (v : pyval) : string :=
  match v with
  | PyNone => "None"
  | PyBool true => "True"
  | PyBool false => "False"
  | PyInt z => pretty z
  | PyStr s => s
  | PyIntEnum _ _ z => pretty z
  | PyEnum c m => c +:+ "." +:+ m
  end.

(** [a == b]: numbers compare by value across [bool], [int] and
    [IntEnum]; everything else by identity of the value. *)
Definition py_eq (a b : pyval) : bool :=
  if isinstance_int a && isinstance_int b
  then (int_value a =? int_value b)%Z
  else bool_decide (a = b).

(** *** [int(s)] for a string

    Optional surrounding whitespace (tab, line feed, vertical tab, form
    feed, carriage return, space), an optional sign, then decimal digits
    in which single underscores may separate digits.  Strings are byte
    strings here: the non-ASCII digits and spaces Python also accepts,
    and its limit on the number of digits, are outside the model. *)

Definition is_space (c : ascii) : bool :=
  let n := N_of_ascii c in
  ((9 <=? n) && (n <=? 13) || (n =? 32))%N.

Definition digit_val (c : ascii) : option Z :=
  let n := N_of_ascii c in
  if ((48 <=? n) && (n <=? 57))%N then Some (Z.of_N n - 48)%Z else None.

Fixpoint skip_space (l : list ascii) : list ascii :=
  match l with
  | c :: l' => if is_space c then skip_space l' else l
  | [] => []
  end.

(** [after_digit] tells whether the previous character was a digit: an
    underscore or the end of the number is allowed only there. *)
Fixpoint parse_digits (acc : Z) (after_digit : bool) (l : list ascii)
  : option (Z * list ascii) :=
  match l with
  | [] => if after_digit then Some (acc, []) else None
  | c :: l' =>
      match digit_val c with
      | Some d => parse_digits (10 * acc + d)%Z true l'
      | None =>
          if after_digit
          then if bool_decide (c = "_"%char)
               then parse_digits acc false l'
               else Some (acc, l)
          else None
      end
  end.

Definition parse_int (s : string) : option Z :=
  let l := skip_space (list_ascii_of_string s) in
  let '(neg, l) :=
    match l with
    | c :: l' =>
        if bool_decide (c = "-"%char) then (true, l')
        else if bool_decide (c = "+"%char) then (false, l')
        else (false, l)
    | [] => (false, l)
    end in
  match parse_digits 0 false l with
  | Some (n, rest) =>
      match skip_space rest with
      | [] => Some (if neg then - n else n)%Z
      | _ :: _ => None
      end
  | None => None
  end.

(** [int(v)] *)
Definition py_int (v : pyval) : result Z :=
  match v with
  | PyNone => Raise TypeError
  | PyBool b => Ok (Z.b2z b)
  | PyInt z => Ok z
  | PyStr s =>
      match parse_int s with
      | Some z => Ok z
      | None => Raise ValueError
      end
  | PyIntEnum _ _ z => Ok z
  | PyEnum _ _ => Raise TypeError
  end.

(** [x or []] for an attribute that holds a list or [None]. *)
Definition or_empty {A} (x : option (list A)) : list A :=
  match x with
  | Some (a :: l) => a :: l
  | _ => []
  end.

(** [bool(x)] for an attribute that holds a list or [None]. *)
Definition list_truthy {A} (x : option (list A)) : bool :=
  match x with
  | Some (_ :: _) => true
  | _ => false
  end.

(** ** Python dicts as insertion-ordered association lists

    Lookup and membership compare keys with [eqb]; [dict_set] overwrites
    the value of an existing key in place and appends a new key, as a
    dict display or comprehension does. *)

Section PyDict.
Context {K V : Type} (eqb : K → K → bool).

Fixpoint dict_get (d : list (K * V)) (k : K) : option V :=
  match d with
  | [] => None
  | (k', v) :: d' => if eqb k' k then Some v else dict_get d' k
  end.

Definition dict_contains (d : list (K * V)) (k : K) : bool :=
  match dict_get d k with Some _ => true | None => false end.

Fixpoint dict_set (d : list (K * V)) (k : K) (v : V) : list (K * V) :=
  match d with
  | [] => [(k, v)]
  | (k', v') :: d' =>
      if eqb k' k then (k', v) :: d' else (k', v') :: dict_set d' k v
  end.

Definition dict_of_items (items : list (K * V)) : list (K * V) :=
  foldl (λ d kv, dict_set d kv.1 kv.2) [] items.

End PyDict.

(** ** The device collaborator

    Modelled from the spec: the wideq device classes and the [LGEDevice]
    wrapper are not under src/.  Their attributes are the ones the
    lambdas and the entity class read (the device collaborator surface):
    per selection feature a capability list and a current value, and on
    the wrapper [unique_id], [available], [available_features], [state]
    and [device_info].  Reading an attribute a device class does not have
    raises [AttributeError].  Lists are values: a capability list is what
    the attribute read returned at that moment. *)

Record WMDevice : Type := {
  wm_course_list : list string;
  wm_select_course_enabled : bool;
  wm_selected_course : option string
}.

Record MicroWaveDevice : Type := {
  mw_display_scroll_speeds : list string;
  mw_defrost_weight_units : list string
}.

Record AirConditionerDevice : Type := {
  ac_vertical_step_modes : option (list pyval);
  ac_vertical_step_mode : pyval;
  ac_auto_dry_modes : option (list pyval);
  ac_auto_dry_mode : pyval
}.

Inductive Device : Type :=
| WashDevice (d : WMDevice)
| MicroWave (d : MicroWaveDevice)
| AirConditioner (d : AirConditionerDevice)
| UnknownDevice.

Definition course_list (d : Device) : result (list string) :=
  match d with WashDevice w => Ok (wm_course_list w) | _ => Raise AttributeError end.
Definition select_course_enabled (d : Device) : result bool :=
  match d with WashDevice w => Ok (wm_select_course_enabled w) | _ => Raise AttributeError end.
Definition selected_course (d : Device) : result (option string) :=
  match d with WashDevice w => Ok (wm_selected_course w) | _ => Raise AttributeError end.
Definition display_scroll_speeds (d : Device) : result (list string) :=
  match d with MicroWave m => Ok (mw_display_scroll_speeds m) | _ => Raise AttributeError end.
Definition defrost_weight_units (d : Device) : result (list string) :=
  match d with MicroWave m => Ok (mw_defrost_weight_units m) | _ => Raise AttributeError end.
Definition vertical_step_modes (d : Device) : result (option (list pyval)) :=
  match d with AirConditioner a => Ok (ac_vertical_step_modes a) | _ => Raise AttributeError end.
Definition vertical_step_mode (d : Device) : result pyval :=
  match d with AirConditioner a => Ok (ac_vertical_step_mode a) | _ => Raise AttributeError end.
Definition auto_dry_modes (d : Device) : result (option (list pyval)) :=
  match d with AirConditioner a => Ok (ac_auto_dry_modes a) | _ => Raise AttributeError end.
Definition auto_dry_mode (d : Device) : result pyval :=
  match d with AirConditioner a => Ok (ac_auto_dry_mode a) | _ => Raise AttributeError end.

(** The cached state snapshot: [device_features] maps a feature key to
    its raw value or to [None]. *)
Record DeviceStatus : Type := {
  device_features : gmap string (option string)
}.

Module LGEDevice.
Record t : Type := mk {
  unique_id : string;
  available : bool;
  available_features : gmap string pyval;
  state : option DeviceStatus;
  device : Device;
  device_info : string
}.
End LGEDevice.

(** The asynchronous write methods of the device classes. *)
Inductive DeviceCall : Type :=
| select_start_course (option : string)
| set_display_scroll_speed (option : string)
| set_defrost_weight_unit (option : string)
| set_vertical_step_mode (step : Z)
| set_auto_dry_mode (mode : pyval).

(** The device categories of the wideq package; this module names two
    of them and receives the washer-like ones through
    [WM_DEVICE_TYPES]. *)
Inductive DeviceType : Type :=
| MICROWAVE
| AC
| OtherDeviceType (name : string).

Global Instance DeviceType_eq_dec : EqDecision DeviceType.
Proof. solve_decision. Defined.

Inductive EntityCategory : Type := CONFIG | DIAGNOSTIC.

(** What this module imports from the wideq package and does not define:
    the washer-like device types, the two microwave feature keys, and
    the behaviour of a device write (whether it raises, and the device
    object it leaves behind). *)
Class Wideq : Type := {
  WM_DEVICE_TYPES : list DeviceType;
  MicroWaveFeatures_DISPLAY_SCROLL_SPEED : string;
  MicroWaveFeatures_WEIGHT_UNIT : string;
  remote : DeviceCall → LGEDevice.t → result unit * LGEDevice.t
}.

(** Modelled from the spec: the enum [ACAutoDryMode] of wideq.devices.ac
    is not under src/; its members are the five keys of [AUTO_DRY_LABEL],
    members of a plain enumeration. *)
Module ACAutoDryMode.
Definition member (m : string) : pyval := PyEnum "ACAutoDryMode" m.
Definition OFF : pyval := member "OFF".
Definition MIN_10 : pyval := member "MIN_10".
Definition MIN_30 : pyval := member "MIN_30".
Definition MIN_60 : pyval := member "MIN_60".
Definition AI : pyval := member "AI".
End ACAutoDryMode.

(** ** Awaited calls: state and exceptions over the device object *)

Inductive Event : Type :=
| EvCall (c : DeviceCall)
| EvSetUpdated.

Record World : Type := {
  w_api : LGEDevice.t;
  w_trace : list Event
}.

Definition M (A : Type) : Type := World → result A * World.

Global Instance M_ret : MRet M := λ A a w, (Ok a, w).
Global Instance M_bind : MBind M := λ A B f m w,
  match m w with
  | (Ok a, w') => f a w'
  | (Raise e, w') => (Raise e, w')
  end.

(** A synchronous computation inside an awaited one. *)
Definition lift {A} (r : result A) : M A := λ w, (r, w).

(** [await x.device.<method>(<argument>)] *)
Definition call `{Wideq} (c : DeviceCall) : M unit := λ w,
  let '(r, api') := remote c (w_api w) in
  (r, {| w_api := api'; w_trace := w_trace w ++ [EvCall c] |}).

(** [LGEDevice.async_set_updated()].  Modelled from the spec: the method
    is not under src/; it signals the coordinator to refresh, which is
    recorded in the trace, and leaves the device object as it is. *)
Definition async_set_updated : M unit := λ w,
  (Ok (), {| w_api := w_api w; w_trace := w_trace w ++ [EvSetUpdated] |}).

(** ** Descriptors

    [ThinQSelectEntityDescription]: the dataclass with the two required
    callables of [ThinQSelectRequiredKeysMixin] and the two optional
    ones.  A callable's argument [x] is the [LGEDevice]; for
    [select_option_fn] it is the device object of the [World] the
    awaited call runs in. *)

Record ThinQSelectEntityDescription : Type := {
  key : string;
  name : string;
  icon : string;
  entity_category : option EntityCategory;
  options_fn : LGEDevice.t → result (list string);
  select_option_fn : string → M unit;
  available_fn : option (LGEDevice.t → result bool);
  value_fn : option (LGEDevice.t → result (option string))
}.

Definition WASH_DEV_SELECT `{Wideq} : list ThinQSelectEntityDescription :=
  [ {| key := "course_selection";
       name := "Course selection";
       icon := "mdi:tune-vertical-variant";
       entity_category := None;
       options_fn := λ x, course_list (LGEDevice.device x);
       select_option_fn := λ option, call (select_start_course option);
       available_fn := Some (λ x, select_course_enabled (LGEDevice.device x));
       value_fn := Some (λ x, selected_course (LGEDevice.device x)) |} ].

Definition MICROWAVE_SELECT `{Wideq} : list ThinQSelectEntityDescription :=
  [ {| key := MicroWaveFeatures_DISPLAY_SCROLL_SPEED;
       name := "Display scroll speed";
       icon := "mdi:format-pilcrow-arrow-right";
       entity_category := Some CONFIG;
       options_fn := λ x, display_scroll_speeds (LGEDevice.device x);
       select_option_fn := λ option, call (set_display_scroll_speed option);
       available_fn := None;
       value_fn := None |};
    {| key := MicroWaveFeatures_WEIGHT_UNIT;
       name := "Weight unit";
       icon := "mdi:weight";
       entity_category := Some CONFIG;
       options_fn := λ x, defrost_weight_units (LGEDevice.device x);
       select_option_fn := λ option, call (set_defrost_weight_unit option);
       available_fn := None;
       value_fn := None |} ].

(** *** AC vertical wind step (1..6) *)

(** [[str(int(m)) for m in (x.device.vertical_step_modes or [])]] *)
Definition vstep_options_fn (x : LGEDevice.t) : result (list string) :=
  modes ← vertical_step_modes (LGEDevice.device x);
  mapM (λ m, n ← py_int m; mret (py_str (PyInt n))) (or_empty modes).

(** [x.device.set_vertical_step_mode(int(option))] *)
Definition vstep_select_option_fn `{Wideq} (option : string) : M unit :=
  n ← lift (py_int (PyStr option));
  call (set_vertical_step_mode n).

(** [str(v) if isinstance((v := x.device.vertical_step_mode), int)
     and 1 <= v <= 6 else None] *)
Definition vstep_value_fn (x : LGEDevice.t) : result (option string) :=
  v ← vertical_step_mode (LGEDevice.device x);
  mret (if isinstance_int v && ((1 <=? int_value v) && (int_value v <=? 6))%Z
        then Some (py_str v)
        else None).

(** [bool(x.device.vertical_step_modes)] *)
Definition vstep_available_fn (x : LGEDevice.t) : result bool :=
  modes ← vertical_step_modes (LGEDevice.device x);
  mret (list_truthy modes).

Definition AC_VSTEP_SELECT `{Wideq} : list ThinQSelectEntityDescription :=
  [ {| key := "ac_vertical_wind_step";
       name := "Vertical Wind Step";
       icon := "mdi:unfold-more-vertical";
       entity_category := None;
       options_fn := vstep_options_fn;
       select_option_fn := vstep_select_option_fn;
       available_fn := Some vstep_available_fn;
       value_fn := Some vstep_value_fn |} ].

(** *** AC auto dry *)

Definition AUTO_DRY_LABEL : list (pyval * string) :=
  dict_of_items py_eq
    [ (ACAutoDryMode.OFF, "꺼짐");
      (ACAutoDryMode.MIN_10, "10분");
      (ACAutoDryMode.MIN_30, "30분");
      (ACAutoDryMode.MIN_60, "60분");
      (ACAutoDryMode.AI, "AI건조") ].

(** [{v: k for k, v in AUTO_DRY_LABEL.items()}] *)
Definition AUTO_DRY_FROM_LABEL : list (string * pyval) :=
  dict_of_items (λ a b : string, bool_decide (a = b))
    (map (λ kv, (kv.2, kv.1)) AUTO_DRY_LABEL).

(** [d[k]] *)
Definition dict_item {K V} (eqb : K → K → bool) (d : list (K * V)) (k : K)
  : result V :=
  match dict_get eqb d k with
  | Some v => Ok v
  | None => Raise KeyError
  end.

(** [[AUTO_DRY_LABEL[m] for m in (x.device.auto_dry_modes or [])]] *)
Definition autodry_options_fn (x : LGEDevice.t) : result (list string) :=
  modes ← auto_dry_modes (LGEDevice.device x);
  mapM (λ m, dict_item py_eq AUTO_DRY_LABEL m) (or_empty modes).

(** [x.device.set_auto_dry_mode(AUTO_DRY_FROM_LABEL[option])] *)
Definition autodry_select_option_fn `{Wideq} (option : string) : M unit :=
  mode ← lift (dict_item (λ a b : string, bool_decide (a = b))
                 AUTO_DRY_FROM_LABEL option);
  call (set_auto_dry_mode mode).

(** [AUTO_DRY_LABEL.get(x.device.auto_dry_mode)
     if x.device.auto_dry_mode in AUTO_DRY_LABEL else None] *)
Definition autodry_value_fn (x : LGEDevice.t) : result (option string) :=
  v ← auto_dry_mode (LGEDevice.device x);
  if dict_contains py_eq AUTO_DRY_LABEL v
  then v' ← auto_dry_mode (LGEDevice.device x);
       mret (dict_get py_eq AUTO_DRY_LABEL v')
  else mret None.

(** [bool(x.device.auto_dry_modes)] *)
Definition autodry_available_fn (x : LGEDevice.t) : result bool :=
  modes ← auto_dry_modes (LGEDevice.device x);
  mret (list_truthy modes).

Definition AC_AUTODRY_SELECT `{Wideq} : list ThinQSelectEntityDescription :=
  [ {| key := "ac_autodry_mode";
       name := "Auto Dry";
       icon := "mdi:hair-dryer";
       entity_category := None;
       options_fn := autodry_options_fn;
       select_option_fn := autodry_select_option_fn;
       available_fn := Some autodry_available_fn;
       value_fn := Some autodry_value_fn |} ].

(** *** The registry *)

Definition DeviceType_eqb (a b : DeviceType) : bool := bool_decide (a = b).

Definition SELECT_ENTITIES `{Wideq}
  : list (DeviceType * list ThinQSelectEntityDescription) :=
  dict_of_items DeviceType_eqb
    ([ (MICROWAVE, MICROWAVE_SELECT); (AC, AC_VSTEP_SELECT) ]
     ++ dict_of_items DeviceType_eqb
          (map (λ dev_type, (dev_type, WASH_DEV_SELECT)) WM_DEVICE_TYPES)).

(** ** The existence predicate *)

Definition _select_exist (lge_device : LGEDevice.t)
    (select_desc : ThinQSelectEntityDescription) : bool :=
  match value_fn select_desc with
  | Some _ => true
  | None =>
      let feature := key select_desc in
      if bool_decide (feature ∈ dom (LGEDevice.available_features lge_device))
      then true
      else false
  end.

(** ** The entity class *)

Record LGESelect : Type := {
  _api : LGEDevice.t;
  entity_description : ThinQSelectEntityDescription;
  _attr_unique_id : string;
  _attr_device_info : string;
  _attr_options : list string
}.

(** [LGESelect.__init__]; the coordinator handed to the base class is
    not modelled. *)
Definition __init__ (api : LGEDevice.t)
    (description : ThinQSelectEntityDescription) : result LGESelect :=
  let unique := LGEDevice.unique_id api +:+ "-" +:+ key description +:+ "-select" in
  options ← options_fn description api;
  mret {| _api := api;
          entity_description := description;
          _attr_unique_id := unique;
          _attr_device_info := LGEDevice.device_info api;
          _attr_options := options |}.

(** The entity after the device object it refers to has become [api']. *)
Definition with_api (self : LGESelect) (api' : LGEDevice.t) : LGESelect :=
  {| _api := api';
     entity_description := entity_description self;
     _attr_unique_id := _attr_unique_id self;
     _attr_device_info := _attr_device_info self;
     _attr_options := _attr_options self |}.

(** The body of [async_select_option], run on the device object. *)
Definition select_option_body (self : LGESelect) (option : string) : M unit :=
  select_option_fn (entity_description self) option ;;
  async_set_updated.

(** [LGESelect.async_select_option]: the outcome, the entity afterwards
    and the trace of calls extended from [trace]. *)
Definition async_select_option (self : LGESelect) (option : string)
    (trace : list Event) : result unit * LGESelect * list Event :=
  let '(r, w) :=
    select_option_body self option {| w_api := _api self; w_trace := trace |} in
  (r, with_api self (w_api w), w_trace w).

(** [LGESelect.current_option] *)
Definition current_option (self : LGESelect) : result (option string) :=
  match value_fn (entity_description self) with
  | Some f => f (_api self)
  | None =>
      match LGEDevice.state (_api self) with
      | Some st =>
          let feature := key (entity_description self) in
          Ok (default None (device_features st !! feature))
      | None => Ok None
      end
  end.

(** [LGESelect.available] *)
Definition available (self : LGESelect) : result bool :=
  is_avail ← match available_fn (entity_description self) with
             | Some f => f (_api self)
             | None => Ok true
             end;
  mret (LGEDevice.available (_api self) && is_avail).

(** ** Discovery *)

(** The (device, descriptor) pairs the comprehension of
    [_async_discover_device] constructs entities for, in its order. *)
Definition discovered_pairs `{Wideq}
    (lge_devices : list (DeviceType * list LGEDevice.t))
  : list (LGEDevice.t * ThinQSelectEntityDescription) :=
  '(dev_type, select_descs) ← SELECT_ENTITIES;
  select_desc ← select_descs;
  lge_device ← default [] (dict_get DeviceType_eqb lge_devices dev_type);
  if _select_exist lge_device select_desc
  then [(lge_device, select_desc)]
  else [].

(** [_async_discover_device]: [None] when it returns without
    registering anything, otherwise the batch handed to
    [async_add_entities]. *)
Definition _async_discover_device `{Wideq}
    (lge_devices : list (DeviceType * list LGEDevice.t))
  : result (option (list LGESelect)) :=
  match lge_devices with
  | [] => Ok None
  | _ :: _ =>
      lge_select ← mapM (λ p, __init__ p.1 p.2) (discovered_pairs lge_devices);
      mret (Some lge_select)
  end.

(** ** Sample collaborators

    A wideq package whose device writes succeed and store the written
    vertical step, one whose writes fail, and a few device objects. *)

Definition store_step (c : DeviceCall) (api : LGEDevice.t) : LGEDevice.t :=
  match c, LGEDevice.device api with
  | set_vertical_step_mode n, AirConditioner ac =>
      LGEDevice.mk (LGEDevice.unique_id api) (LGEDevice.available api)
        (LGEDevice.available_features api) (LGEDevice.state api)
        (AirConditioner
           {| ac_vertical_step_modes := ac_vertical_step_modes ac;
              ac_vertical_step_mode := PyInt n;
              ac_auto_dry_modes := ac_auto_dry_modes ac;
              ac_auto_dry_mode := ac_auto_dry_mode ac |})
        (LGEDevice.device_info api)
  | _, _ => api
  end.

Definition wideq_ok : Wideq := {|
  WM_DEVICE_TYPES := [OtherDeviceType "WASHER"; OtherDeviceType "DRYER"];
  MicroWaveFeatures_DISPLAY_SCROLL_SPEED := "display_scroll_speed";
  MicroWaveFeatures_WEIGHT_UNIT := "weight_unit";
  remote := λ c api, (Ok (), store_step c api)
|}.

Definition wideq_failing : Wideq := {|
  WM_DEVICE_TYPES := [OtherDeviceType "WASHER"; OtherDeviceType "DRYER"];
  MicroWaveFeatures_DISPLAY_SCROLL_SPEED := "display_scroll_speed";
  MicroWaveFeatures_WEIGHT_UNIT := "weight_unit";
  remote := λ c api, (Raise (DeviceError "offline"), api)
|}.

Definition sample_ac (modes : option (list pyval)) (mode : pyval) : LGEDevice.t :=
  LGEDevice.mk "AC:0f1e" true ∅ None
    (AirConditioner
       {| ac_vertical_step_modes := modes;
          ac_vertical_step_mode := mode;
          ac_auto_dry_modes := Some [ACAutoDryMode.OFF; ACAutoDryMode.AI];
          ac_auto_dry_mode := ACAutoDryMode.AI |})
    "LG air conditioner".

Definition sample_microwave (features : gmap string pyval)
    (st : option DeviceStatus) (avail : bool) : LGEDevice.t :=
  LGEDevice.mk "MICROWAVE:77aa" avail features st
    (MicroWave
       {| mw_display_scroll_speeds := ["slow"; "normal"; "fast"];
          mw_defrost_weight_units := ["kg"; "lb"] |})
    "LG microwave".

Definition sample_washer (enabled : bool) : LGEDevice.t :=
  LGEDevice.mk "WASHER:51c2" true ∅ None
    (WashDevice
       {| wm_course_list := ["-"; "Cotton"; "Wool"];
          wm_select_course_enabled := enabled;
          wm_selected_course := Some "Cotton" |})
    "LG washer".

(** The single descriptors of the one-element tables. *)
Definition vstep_desc (W : Wideq) : ThinQSelectEntityDescription :=
  default (Build_ThinQSelectEntityDescription "" "" "" None
             (λ _, Ok []) (λ _, mret ()) None None)
          (head (@AC_VSTEP_SELECT W)).
Definition scroll_desc (W : Wideq) : ThinQSelectEntityDescription :=
  default (vstep_desc W) (head (@MICROWAVE_SELECT W)).
Definition autodry_desc (W : Wideq) : ThinQSelectEntityDescription :=
  default (vstep_desc W) (head (@AC_AUTODRY_SELECT W)).
Definition wash_desc (W : Wideq) : ThinQSelectEntityDescription :=
  default (vstep_desc W) (head (@WASH_DEV_SELECT W)).

(** An entity built directly from its attributes. *)
Definition entity_of (api : LGEDevice.t) (d : ThinQSelectEntityDescription)
    (options : list string) : LGESelect :=
  {| _api := api;
     entity_description := d;
     _attr_unique_id := LGEDevice.unique_id api +:+ "-" +:+ key d +:+ "-select";
     _attr_device_info := LGEDevice.device_info api;
     _attr_options := options |}.

(** ** The operations an entity undergoes after construction

    The host platform selects options and reads the two properties; the
    coordinator replaces the device object's state.  The property reads
    assign nothing. *)

Inductive EntityOp : Type :=
| OpSelectOption (option : string)
| OpReadCurrentOption
| OpReadAvailable
| OpDeviceChange (api' : LGEDevice.t).

Definition entity_step (op : EntityOp) (st : LGESelect * list Event)
  : LGESelect * list Event :=
  match op with
  | OpSelectOption option =>
      let '(_, self', trace') := async_select_option st.1 option st.2 in
      (self', trace')
  | OpReadCurrentOption => let _ := current_option st.1 in st
  | OpReadAvailable => let _ := available st.1 in st
  | OpDeviceChange api' => (with_api st.1 api', st.2)
  end.

Definition entity_run (ops : list EntityOp) (st : LGESelect * list Event)
  : LGESelect * list Event :=
  foldl (λ st op, entity_step op st) st ops.

Definition sample_status (k v : string) : DeviceStatus :=
  {| device_features := {[ k := Some v ]} |}.

Definition one_to_six : list pyval :=
  [PyInt 1; PyInt 2; PyInt 3; PyInt 4; PyInt 5; PyInt 6].

(** ** Registered descriptors and the superset property *)

Definition registered `{Wideq} (desc : ThinQSelectEntityDescription) : Prop :=
  ∃ dev_type select_descs,
    (dev_type, select_descs) ∈ SELECT_ENTITIES ∧ desc ∈ select_descs.

(** On device [x], whatever string the value function of [desc] returns
    is one of the options its options function lists. *)
Definition options_cover_value (desc : ThinQSelectEntityDescription)
    (x : LGEDevice.t) : Prop :=
  ∀ f s opts,
    value_fn desc = Some f →
    f x = Ok (Some s) →
    options_fn desc x = Ok opts →
    s ∈ opts.

(** ** Unique identifiers *)

(** The separator of the unique-id format does not occur in [s]. *)
Fixpoint hyphen_free (s : string) : bool :=
  match s with
  | EmptyString => true
  | String c s' => negb (bool_decide (c = "-"%char)) && hyphen_free s'
  end.

(** A descriptor with key [k] and inert callables, and a device with
    unique id [uid]. *)
Definition keyed_desc (k : string) : ThinQSelectEntityDescription :=
  {| key := k; name := k; icon := ""; entity_category := None;
     options_fn := λ _, Ok [];
     select_option_fn := λ _, mret ();
     available_fn := None;
     value_fn := None |}.

Definition device_with_id (uid : string) : LGEDevice.t :=
  LGEDevice.mk uid true ∅ None UnknownDevice "".

(** ** Discoverable pairs *)

(** The device [api] is listed in [lge_devices] under a device type
    whose registered descriptors include [desc], and the existence
    predicate accepts the pair. *)
Definition discoverable `{Wideq}
    (lge_devices : list (DeviceType * list LGEDevice.t))
    (api : LGEDevice.t) (desc : ThinQSelectEntityDescription) : Prop :=
  ∃ dev_type select_descs devices,
    (dev_type, select_descs) ∈ SELECT_ENTITIES ∧
    desc ∈ select_descs ∧
    dict_get DeviceType_eqb lge_devices dev_type = Some devices ∧
    api ∈ devices ∧
    _select_exist api desc = true.

(** ** The outcome of an option change that issues one device write *)

(** The write [c] is sent to the device; the refresh signal follows it
    when it succeeds. *)
Definition write_outcome `{Wideq} (self : LGESelect) (c : DeviceCall)
    (trace : list Event) : result unit * LGESelect * list Event :=
  let '(r, api') := remote c (_api self) in
  (r, with_api self api',
   (trace ++ EvCall c
          :: match r with Ok _ => [EvSetUpdated] | Raise _ => [] end)%list).

Definition sample_fridge_devices : list (DeviceType * list LGEDevice.t) :=
  [(OtherDeviceType "REFRIGERATOR", [device_with_id "REFRIGERATOR:9d1c"])].


(** * Properties *)

(** ** The builtins on sample values *)

Example py_int_samples :
  py_int (PyStr "5") = Ok 5%Z ∧
  py_int (PyStr " -12 ") = Ok (-12)%Z ∧
  py_int (PyStr "1_000") = Ok 1000%Z ∧
  py_int (PyStr "007") = Ok 7%Z ∧
  py_int (PyStr "5_") = Raise ValueError ∧
  py_int (PyStr "+ 5") = Raise ValueError ∧
  py_int (PyStr "") = Raise ValueError ∧
  py_int (PyStr "AI") = Raise ValueError ∧
  py_int (PyIntEnum "ACVStepMode" "STEP_4" 4) = Ok 4%Z ∧
  py_int (PyBool true) = Ok 1%Z ∧
  py_int PyNone = Raise TypeError.
Proof. repeat split; reflexivity. Qed.

Example py_str_samples :
  py_str (PyInt 6) = "6" ∧
  py_str (PyInt (-3)) = "-3" ∧
  py_str (PyIntEnum "ACVStepMode" "STEP_4" 4) = "4" ∧
  py_str (PyBool true) = "True" ∧
  py_str ACAutoDryMode.AI = "ACAutoDryMode.AI".
Proof. repeat split; reflexivity. Qed.

Example AUTO_DRY_FROM_LABEL_samples :
  dict_item (λ a b : string, bool_decide (a = b)) AUTO_DRY_FROM_LABEL "꺼짐"
  = Ok ACAutoDryMode.OFF ∧
  dict_item (λ a b : string, bool_decide (a = b)) AUTO_DRY_FROM_LABEL "AI건조"
  = Ok ACAutoDryMode.AI ∧
  dict_item (λ a b : string, bool_decide (a = b)) AUTO_DRY_FROM_LABEL "off"
  = Raise KeyError.
Proof. repeat split; reflexivity. Qed.

(** ** Existence predicate *)

(** C1: [_select_exist] is true whenever the descriptor has a value
    function, whatever the device's feature map; without a value function
    it is true exactly when the descriptor's key is a key of the device's
    [available_features]. *)
Theorem select_exist_spec (lge_device : LGEDevice.t)
    (select_desc : ThinQSelectEntityDescription) :
  (is_Some (value_fn select_desc) →
     _select_exist lge_device select_desc = true) ∧
  (value_fn select_desc = None →
     (_select_exist lge_device select_desc = true ↔
      is_Some (LGEDevice.available_features lge_device !! key select_desc))).
Proof.
  unfold _select_exist. split.
  - intros [f Hf]. by rewrite Hf.
  - intros Hnone. rewrite Hnone. rewrite <- elem_of_dom.
    case_bool_decide; naive_solver.
Qed.

Lemma select_exist_spec_witness :
  _select_exist (sample_microwave ∅ None true) (vstep_desc wideq_ok) = true ∧
  (_select_exist (sample_microwave {[ "display_scroll_speed" := PyStr "slow" ]} None true)
     (scroll_desc wideq_ok) = true ↔
   is_Some (LGEDevice.available_features
              (sample_microwave {[ "display_scroll_speed" := PyStr "slow" ]} None true)
            !! key (scroll_desc wideq_ok))).
Proof.
  split.
  - apply (proj1 (select_exist_spec (sample_microwave ∅ None true)
                    (vstep_desc wideq_ok))).
    vm_compute. eauto.
  - apply (proj2 (select_exist_spec
                    (sample_microwave {[ "display_scroll_speed" := PyStr "slow" ]}
                       None true)
                    (scroll_desc wideq_ok))).
    reflexivity.
Defined.

(** ** Reading the current option *)

(** C3: [current_option] is the value function applied to the device when
    the descriptor has one (its result, absent or not, is returned as it
    is); otherwise, with a cached state, it is the entry of the state's
    feature map at the descriptor's key, absent when the key is missing;
    otherwise it is absent. *)
Theorem current_option_spec (self : LGESelect) :
  (∀ f, value_fn (entity_description self) = Some f →
        current_option self = f (_api self)) ∧
  (∀ st, value_fn (entity_description self) = None →
         LGEDevice.state (_api self) = Some st →
         (∀ v, device_features st !! key (entity_description self) = Some v →
               current_option self = Ok v) ∧
         (device_features st !! key (entity_description self) = None →
          current_option self = Ok None)) ∧
  (value_fn (entity_description self) = None →
   LGEDevice.state (_api self) = None →
   current_option self = Ok None).
Proof.
  unfold current_option. split; [|split].
  - intros f ->. done.
  - intros st -> ->. split.
    + intros v ->. done.
    + intros ->. done.
  - intros -> ->. done.
Qed.

Lemma current_option_spec_witness :
  current_option
    (entity_of (sample_ac (Some one_to_six) (PyInt 3)) (vstep_desc wideq_ok) [])
  = vstep_value_fn (sample_ac (Some one_to_six) (PyInt 3)) ∧
  current_option
    (entity_of (sample_microwave ∅ (Some (sample_status "display_scroll_speed" "fast")) true)
       (scroll_desc wideq_ok) [])
  = Ok (Some "fast") ∧
  current_option
    (entity_of (sample_microwave ∅ None true) (scroll_desc wideq_ok) [])
  = Ok None.
Proof.
  split; [|split].
  - apply (proj1 (current_option_spec
                    (entity_of (sample_ac (Some one_to_six) (PyInt 3))
                       (vstep_desc wideq_ok) []))
             vstep_value_fn).
    reflexivity.
  - apply (proj1 (proj1 (proj2 (current_option_spec
                    (entity_of (sample_microwave ∅
                                  (Some (sample_status "display_scroll_speed" "fast")) true)
                       (scroll_desc wideq_ok) [])))
                    (sample_status "display_scroll_speed" "fast")
                    eq_refl eq_refl)
             (Some "fast")).
    reflexivity.
  - apply (proj2 (proj2 (current_option_spec
                    (entity_of (sample_microwave ∅ None true)
                       (scroll_desc wideq_ok) [])))).
    + reflexivity.
    + reflexivity.
Defined.

(** ** Availability *)

(** C4: [available] is the conjunction of the device-level flag and the
    descriptor's availability predicate applied to the device, the
    predicate counting as true when the descriptor has none; with the
    device-level flag false it is false whatever the predicate answers. *)
Theorem available_spec (self : LGESelect) :
  (available_fn (entity_description self) = None →
   available self = Ok (LGEDevice.available (_api self))) ∧
  (∀ f b, available_fn (entity_description self) = Some f →
          f (_api self) = Ok b →
          available self = Ok (LGEDevice.available (_api self) && b)) ∧
  (LGEDevice.available (_api self) = false →
   (available_fn (entity_description self) = None ∨
    ∃ f b, available_fn (entity_description self) = Some f ∧
           f (_api self) = Ok b) →
   available self = Ok false).
Proof.
  unfold available. split; [|split].
  - intros ->. simpl. by rewrite andb_true_r.
  - intros f b -> Hf. simpl. by rewrite Hf.
  - intros Hflag [->|(f & b & -> & Hf)]; simpl.
    + by rewrite Hflag.
    + by rewrite Hf, Hflag.
Qed.

Lemma available_spec_witness :
  available (entity_of (sample_microwave ∅ None true) (scroll_desc wideq_ok) [])
  = Ok true ∧
  available (entity_of (sample_washer false) (wash_desc wideq_ok) [])
  = Ok (true && false) ∧
  available (entity_of (sample_microwave ∅ None false) (scroll_desc wideq_ok) [])
  = Ok false.
Proof.
  split; [|split].
  - apply (proj1 (available_spec
                    (entity_of (sample_microwave ∅ None true)
                       (scroll_desc wideq_ok) []))).
    reflexivity.
  - apply (proj1 (proj2 (available_spec
                    (entity_of (sample_washer false) (wash_desc wideq_ok) [])))
             (λ x, select_course_enabled (LGEDevice.device x)) false).
    + reflexivity.
    + reflexivity.
  - apply (proj2 (proj2 (available_spec
                    (entity_of (sample_microwave ∅ None false)
                       (scroll_desc wideq_ok) [])))).
    + reflexivity.
    + left. reflexivity.
Defined.

(** ** Selecting an option *)

Lemma select_option_body_unfold (self : LGESelect) (option : string) (w : World) :
  select_option_body self option w =
  match select_option_fn (entity_description self) option w with
  | (Ok _, w') => async_set_updated w'
  | (Raise e, w') => (Raise e, w')
  end.
Proof. reflexivity. Qed.

(** C2: [async_select_option] awaits the descriptor's apply function on
    the device and, when that call completes, sends the refresh signal
    [async_set_updated]; when the call fails the same exception comes out,
    the trace is the one the failed call left (no refresh signal is
    appended).  The option is handed over as it is, whether or not it is
    in [_attr_options], and in either case every attribute of the entity
    itself is what it was. *)
Theorem async_select_option_spec (self : LGESelect) (option : string)
    (trace : list Event) :
  let w0 := {| w_api := _api self; w_trace := trace |} in
  (∀ w', select_option_fn (entity_description self) option w0 = (Ok (), w') →
         async_select_option self option trace
         = (Ok (), with_api self (w_api w'), (w_trace w' ++ [EvSetUpdated])%list)) ∧
  (∀ e w', select_option_fn (entity_description self) option w0 = (Raise e, w') →
           async_select_option self option trace
           = (Raise e, with_api self (w_api w'), w_trace w')) ∧
  (∀ r self' trace', async_select_option self option trace = (r, self', trace') →
     entity_description self' = entity_description self ∧
     _attr_unique_id self' = _attr_unique_id self ∧
     _attr_device_info self' = _attr_device_info self ∧
     _attr_options self' = _attr_options self).
Proof.
  intros w0. unfold async_select_option. fold w0.
  rewrite select_option_body_unfold. split; [|split].
  - intros w' ->. reflexivity.
  - intros e w' ->. reflexivity.
  - intros r self' trace'.
    destruct (select_option_fn (entity_description self) option w0) as [[u|e] w'];
      simpl; intros [= <- <- <-]; done.
Qed.

Lemma async_select_option_spec_witness :
  async_select_option
    (entity_of (sample_ac (Some one_to_six) (PyInt 3)) (vstep_desc wideq_ok)
       ["1"; "2"; "3"; "4"; "5"; "6"])
    "5" []
  = (Ok (),
     with_api
       (entity_of (sample_ac (Some one_to_six) (PyInt 3)) (vstep_desc wideq_ok)
          ["1"; "2"; "3"; "4"; "5"; "6"])
       (sample_ac (Some one_to_six) (PyInt 5)),
     [EvCall (set_vertical_step_mode 5); EvSetUpdated]) ∧
  async_select_option
    (entity_of (sample_ac (Some one_to_six) (PyInt 3)) (vstep_desc wideq_failing)
       ["1"; "2"; "3"; "4"; "5"; "6"])
    "9" []
  = (Raise (DeviceError "offline"),
     with_api
       (entity_of (sample_ac (Some one_to_six) (PyInt 3)) (vstep_desc wideq_failing)
          ["1"; "2"; "3"; "4"; "5"; "6"])
       (sample_ac (Some one_to_six) (PyInt 3)),
     [EvCall (set_vertical_step_mode 9)]).
Proof.
  split.
  - apply (proj1 (async_select_option_spec
                    (entity_of (sample_ac (Some one_to_six) (PyInt 3))
                       (vstep_desc wideq_ok) ["1"; "2"; "3"; "4"; "5"; "6"])
                    "5" [])
             {| w_api := sample_ac (Some one_to_six) (PyInt 5);
                w_trace := [EvCall (set_vertical_step_mode 5)] |}).
    reflexivity.
  - apply (proj1 (proj2 (async_select_option_spec
                    (entity_of (sample_ac (Some one_to_six) (PyInt 3))
                       (vstep_desc wideq_failing) ["1"; "2"; "3"; "4"; "5"; "6"])
                    "9" []))
             (DeviceError "offline")
             {| w_api := sample_ac (Some one_to_six) (PyInt 3);
                w_trace := [EvCall (set_vertical_step_mode 9)] |}).
    reflexivity.
Defined.

(** ** The captured options list *)

Lemma entity_step_options (op : EntityOp) (st : LGESelect * list Event) :
  _attr_options (entity_step op st).1 = _attr_options st.1.
Proof.
  destruct op as [option| | |api']; simpl; try done.
  unfold async_select_option.
  destruct (select_option_body st.1 option _) as [r w]. done.
Qed.

Lemma entity_run_options (ops : list EntityOp) (st : LGESelect * list Event) :
  _attr_options (entity_run ops st).1 = _attr_options st.1.
Proof.
  revert st. induction ops as [|op ops IH]; intros st; [done|].
  change (entity_run (op :: ops) st) with (entity_run ops (entity_step op st)).
  rewrite IH. apply entity_step_options.
Qed.

(** C6: the options list of an entity is the result of the descriptor's
    options function on the device at construction, and no sequence of
    later operations (selecting an option, reading the current option or
    the availability, a change of the device's state) alters it. *)
Theorem options_captured_once (api : LGEDevice.t)
    (description : ThinQSelectEntityDescription) (self : LGESelect) :
  __init__ api description = Ok self →
  options_fn description api = Ok (_attr_options self) ∧
  ∀ (ops : list EntityOp) (trace : list Event),
    _attr_options (entity_run ops (self, trace)).1 = _attr_options self.
Proof.
  unfold __init__. intros Hinit. split.
  - destruct (options_fn description api) as [options|e]; simpl in Hinit.
    + by injection Hinit as <-.
    + discriminate.
  - intros ops trace. apply entity_run_options.
Qed.

Lemma options_captured_once_witness :
  options_fn (vstep_desc wideq_ok) (sample_ac (Some [PyInt 1; PyInt 2]) (PyInt 1))
  = Ok ["1"; "2"] ∧
  ∀ (ops : list EntityOp) (trace : list Event),
    _attr_options
      (entity_run ops
         (entity_of (sample_ac (Some [PyInt 1; PyInt 2]) (PyInt 1))
            (vstep_desc wideq_ok) ["1"; "2"], trace)).1
    = ["1"; "2"].
Proof.
  apply (options_captured_once
           (sample_ac (Some [PyInt 1; PyInt 2]) (PyInt 1))
           (vstep_desc wideq_ok)
           (entity_of (sample_ac (Some [PyInt 1; PyInt 2]) (PyInt 1))
              (vstep_desc wideq_ok) ["1"; "2"])).
  vm_compute. reflexivity.
Defined.

(** The captured list is not refreshed: after the device starts
    reporting six steps, an entity built when it reported two still offers
    two, while the options function on the new state yields six. *)
Lemma options_stale_example :
  let self := entity_of (sample_ac (Some [PyInt 1; PyInt 2]) (PyInt 1))
                (vstep_desc wideq_ok) ["1"; "2"] in
  let st := entity_run
              [OpDeviceChange (sample_ac (Some one_to_six) (PyInt 1));
               OpReadCurrentOption; OpSelectOption "2"]
              (self, []) in
  _attr_options st.1 = ["1"; "2"] ∧
  options_fn (entity_description st.1) (_api st.1)
  = Ok ["1"; "2"; "3"; "4"; "5"; "6"].
Proof. vm_compute. done. Qed.

(** ** The vertical wind step descriptor *)

Lemma init_fields (api : LGEDevice.t) (description : ThinQSelectEntityDescription)
    (self : LGESelect) :
  __init__ api description = Ok self →
  _api self = api ∧
  entity_description self = description ∧
  _attr_unique_id self
  = LGEDevice.unique_id api +:+ "-" +:+ key description +:+ "-select" ∧
  options_fn description api = Ok (_attr_options self).
Proof.
  unfold __init__. destruct (options_fn description api) as [options|e]; simpl.
  - intros [= <-]. done.
  - discriminate.
Qed.

Lemma vstep_select_option_fn_5 `{Wideq} (w : World) :
  vstep_select_option_fn "5" w = call (set_vertical_step_mode 5) w.
Proof. reflexivity. Qed.

(** C7: on an AC device reporting [vertical_step_modes = [1,2,3,4,5,6]]
    and [vertical_step_mode = 3], the vertical-wind-step descriptor's
    options function yields ["1"; ...; "6"], its value function yields
    "3", and selecting "5" on its entity issues the device write
    [set_vertical_step_mode] with the integer 5 (followed by the refresh
    signal when the write succeeds). *)
Theorem vertical_wind_step_scenario `{Wideq} (api : LGEDevice.t)
    (ac : AirConditionerDevice) (desc : ThinQSelectEntityDescription)
    (self : LGESelect) (trace : list Event) :
  desc ∈ AC_VSTEP_SELECT →
  LGEDevice.device api = AirConditioner ac →
  ac_vertical_step_modes ac = Some one_to_six →
  ac_vertical_step_mode ac = PyInt 3 →
  __init__ api desc = Ok self →
  options_fn desc api = Ok ["1"; "2"; "3"; "4"; "5"; "6"] ∧
  (∃ f, value_fn desc = Some f ∧ f api = Ok (Some "3")) ∧
  current_option self = Ok (Some "3") ∧
  async_select_option self "5" trace
  = (let '(r, api') := remote (set_vertical_step_mode 5) api in
     (r, with_api self api',
      (trace ++ EvCall (set_vertical_step_mode 5)
             :: match r with Ok _ => [EvSetUpdated] | Raise _ => [] end)%list)).
Proof.
  intros Hdesc Hdev Hmodes Hmode Hinit.
  apply list_elem_of_singleton in Hdesc.
  destruct (init_fields _ _ _ Hinit) as (Hapi & Hd & _ & _).
  assert (Hopts : vstep_options_fn api = Ok ["1"; "2"; "3"; "4"; "5"; "6"]).
  { unfold vstep_options_fn, vertical_step_modes. rewrite Hdev. simpl.
    rewrite Hmodes. vm_compute. reflexivity. }
  assert (Hval : vstep_value_fn api = Ok (Some "3")).
  { unfold vstep_value_fn, vertical_step_mode. rewrite Hdev. simpl.
    rewrite Hmode. vm_compute. reflexivity. }
  split; [by subst desc|]. split; [subst desc; eauto|]. split.
  { unfold current_option. rewrite Hd, Hapi. by subst desc. }
  unfold async_select_option. rewrite select_option_body_unfold.
  rewrite Hd, Hapi. subst desc.
  change (select_option_fn _ "5") with (vstep_select_option_fn "5").
  rewrite vstep_select_option_fn_5. unfold call.
  cbn [w_api w_trace].
  destruct (remote (set_vertical_step_mode 5) api) as [[[]|e] api'];
    cbn [async_set_updated w_api w_trace]; [|reflexivity].
  unfold async_set_updated. cbn [w_api w_trace].
  by rewrite <- (assoc_L (++)).
Qed.

Lemma vertical_wind_step_scenario_witness :
  options_fn (vstep_desc wideq_ok) (sample_ac (Some one_to_six) (PyInt 3))
  = Ok ["1"; "2"; "3"; "4"; "5"; "6"] ∧
  (∃ f, value_fn (vstep_desc wideq_ok) = Some f ∧
        f (sample_ac (Some one_to_six) (PyInt 3)) = Ok (Some "3")) ∧
  current_option
    (entity_of (sample_ac (Some one_to_six) (PyInt 3)) (vstep_desc wideq_ok)
       ["1"; "2"; "3"; "4"; "5"; "6"])
  = Ok (Some "3") ∧
  async_select_option
    (entity_of (sample_ac (Some one_to_six) (PyInt 3)) (vstep_desc wideq_ok)
       ["1"; "2"; "3"; "4"; "5"; "6"])
    "5" []
  = (Ok (),
     with_api
       (entity_of (sample_ac (Some one_to_six) (PyInt 3)) (vstep_desc wideq_ok)
          ["1"; "2"; "3"; "4"; "5"; "6"])
       (sample_ac (Some one_to_six) (PyInt 5)),
     [EvCall (set_vertical_step_mode 5); EvSetUpdated]).
Proof.
  apply (@vertical_wind_step_scenario wideq_ok
           (sample_ac (Some one_to_six) (PyInt 3))
           {| ac_vertical_step_modes := Some one_to_six;
              ac_vertical_step_mode := PyInt 3;
              ac_auto_dry_modes := Some [ACAutoDryMode.OFF; ACAutoDryMode.AI];
              ac_auto_dry_mode := ACAutoDryMode.AI |}
           (vstep_desc wideq_ok)
           (entity_of (sample_ac (Some one_to_six) (PyInt 3)) (vstep_desc wideq_ok)
              ["1"; "2"; "3"; "4"; "5"; "6"])
           []).
  - vm_compute. left.
  - reflexivity.
  - reflexivity.
  - reflexivity.
  - vm_compute. reflexivity.
Defined.

(** ** The AC value functions *)

Lemma AUTO_DRY_LABEL_items :
  AUTO_DRY_LABEL =
  [ (ACAutoDryMode.OFF, "꺼짐");
    (ACAutoDryMode.MIN_10, "10분");
    (ACAutoDryMode.MIN_30, "30분");
    (ACAutoDryMode.MIN_60, "60분");
    (ACAutoDryMode.AI, "AI건조") ].
Proof. reflexivity. Qed.

Lemma py_eq_not_int (k v : pyval) :
  isinstance_int k = false → py_eq k v = bool_decide (k = v).
Proof. unfold py_eq. by intros ->. Qed.

Local Ltac label_found :=
  split;
  [ intros [= <-]; repeat ((left; reflexivity) || right)
  | intros Hor; repeat (destruct Hor as [Hor|Hor]); by inversion Hor ].

Lemma auto_dry_label_get (v : pyval) (s : string) :
  dict_get py_eq AUTO_DRY_LABEL v = Some s ↔ (v, s) ∈ AUTO_DRY_LABEL.
Proof.
  rewrite AUTO_DRY_LABEL_items. cbn [dict_get].
  rewrite !py_eq_not_int by reflexivity.
  rewrite !elem_of_cons, elem_of_nil.
  destruct (bool_decide_reflect (ACAutoDryMode.OFF = v)) as [<-|?]; [label_found|].
  destruct (bool_decide_reflect (ACAutoDryMode.MIN_10 = v)) as [<-|?]; [label_found|].
  destruct (bool_decide_reflect (ACAutoDryMode.MIN_30 = v)) as [<-|?]; [label_found|].
  destruct (bool_decide_reflect (ACAutoDryMode.MIN_60 = v)) as [<-|?]; [label_found|].
  destruct (bool_decide_reflect (ACAutoDryMode.AI = v)) as [<-|?]; [label_found|].
  split; [done|].
  intros Hor; repeat (destruct Hor as [Hor|Hor]); try done;
    inversion Hor; congruence.
Qed.

Lemma auto_dry_label_contains (v : pyval) :
  dict_contains py_eq AUTO_DRY_LABEL v = true ↔
  ∃ s, dict_get py_eq AUTO_DRY_LABEL v = Some s.
Proof.
  unfold dict_contains. destruct (dict_get py_eq AUTO_DRY_LABEL v) as [s|].
  - split; eauto.
  - split; [done|]. by intros [s ?].
Qed.

Lemma vstep_value_fn_ac (x : LGEDevice.t) (ac : AirConditionerDevice) :
  LGEDevice.device x = AirConditioner ac →
  vstep_value_fn x
  = Ok (if isinstance_int (ac_vertical_step_mode ac)
           && ((1 <=? int_value (ac_vertical_step_mode ac))
               && (int_value (ac_vertical_step_mode ac) <=? 6))%Z
        then Some (py_str (ac_vertical_step_mode ac))
        else None).
Proof. unfold vstep_value_fn, vertical_step_mode. by intros ->. Qed.

Lemma autodry_value_fn_ac (x : LGEDevice.t) (ac : AirConditionerDevice) :
  LGEDevice.device x = AirConditioner ac →
  autodry_value_fn x
  = Ok (if dict_contains py_eq AUTO_DRY_LABEL (ac_auto_dry_mode ac)
        then dict_get py_eq AUTO_DRY_LABEL (ac_auto_dry_mode ac)
        else None).
Proof.
  unfold autodry_value_fn, auto_dry_mode. intros ->. cbn [mbind result_bind].
  by destruct (dict_contains py_eq AUTO_DRY_LABEL (ac_auto_dry_mode ac)).
Qed.

(** C10: on an AC device neither value function raises.  The
    vertical-wind-step one returns a string exactly when the reported
    [vertical_step_mode] is an [int] instance between 1 and 6, and then
    its [str] (the decimal numeral for an integer); the auto-dry one
    returns a string exactly when the reported [auto_dry_mode] is one of
    the five members of [AUTO_DRY_LABEL], and then that member's label.
    In every other case they return [None]. *)
Theorem ac_value_fns_guarded (uid info : string) (avail : bool)
    (features : gmap string pyval) (st : option DeviceStatus)
    (ac : AirConditionerDevice) :
  let x := LGEDevice.mk uid avail features st (AirConditioner ac) info in
  (∃ r, vstep_value_fn x = Ok r) ∧
  (∀ s, vstep_value_fn x = Ok (Some s) ↔
        isinstance_int (ac_vertical_step_mode ac) = true ∧
        (1 ≤ int_value (ac_vertical_step_mode ac) ≤ 6)%Z ∧
        s = py_str (ac_vertical_step_mode ac)) ∧
  (∀ z, ac_vertical_step_mode ac = PyInt z →
        vstep_value_fn x
        = Ok (if decide (1 ≤ z ≤ 6)%Z then Some (pretty z) else None)) ∧
  (∃ r, autodry_value_fn x = Ok r) ∧
  (∀ s, autodry_value_fn x = Ok (Some s) ↔
        (ac_auto_dry_mode ac, s) ∈
          [ (ACAutoDryMode.OFF, "꺼짐");
            (ACAutoDryMode.MIN_10, "10분");
            (ACAutoDryMode.MIN_30, "30분");
            (ACAutoDryMode.MIN_60, "60분");
            (ACAutoDryMode.AI, "AI건조") ]).
Proof.
  intros x.
  rewrite (vstep_value_fn_ac x ac eq_refl), (autodry_value_fn_ac x ac eq_refl).
  set (v := ac_vertical_step_mode ac). set (m := ac_auto_dry_mode ac).
  split; [eauto|]. split; [|split; [|split]].
  - intros s.
    destruct (isinstance_int v); cbn [andb]; [|split; [done|by intros [? _]]].
    destruct (Z.leb_spec 1 (int_value v)), (Z.leb_spec (int_value v) 6);
      cbn [andb];
      (split; [intros [= <-]; done | intros (_ & ? & ->); try done; lia]).
  - intros z Hz. subst v. rewrite Hz. cbn [isinstance_int int_value py_str andb].
    destruct (Z.leb_spec 1 z), (Z.leb_spec z 6); cbn [andb];
      destruct (decide (1 ≤ z ≤ 6)%Z); try done; lia.
  - eauto.
  - intros s. rewrite <- AUTO_DRY_LABEL_items, <- auto_dry_label_get.
    destruct (dict_contains py_eq AUTO_DRY_LABEL m) eqn:Hc.
    + split; congruence.
    + split; [done|]. intros Hs.
      assert (dict_contains py_eq AUTO_DRY_LABEL m = true) as Ht
        by (apply auto_dry_label_contains; eauto).
      congruence.
Qed.

Lemma ac_value_fns_guarded_witness :
  vstep_value_fn (sample_ac (Some one_to_six) (PyInt 3)) = Ok (Some "3") ∧
  autodry_value_fn (sample_ac (Some one_to_six) (PyInt 3)) = Ok (Some "AI건조").
Proof.
  destruct (ac_value_fns_guarded "AC:0f1e" "LG air conditioner" true ∅ None
              {| ac_vertical_step_modes := Some one_to_six;
                 ac_vertical_step_mode := PyInt 3;
                 ac_auto_dry_modes := Some [ACAutoDryMode.OFF; ACAutoDryMode.AI];
                 ac_auto_dry_mode := ACAutoDryMode.AI |})
    as (_ & _ & Hint & _ & Hdry).
  split.
  - apply (Hint 3%Z). reflexivity.
  - apply Hdry. cbn [ac_auto_dry_mode]. do 4 right. left.
Defined.

(** ** Options and current value *)

Lemma mapM_result_elem {A B} (f : A → result B) (l : list A) (a : A) (b : B)
    (opts : list B) :
  mapM f l = Ok opts → a ∈ l → f a = Ok b → b ∈ opts.
Proof.
  revert opts. induction l as [|a' l IH]; intros opts Hm Ha Hf.
  - by apply elem_of_nil in Ha.
  - cbn [mapM] in Hm. unfold mbind, result_bind in Hm.
    destruct (f a') as [b'|] eqn:Hfa'; [|discriminate].
    destruct (mapM f l) as [opts'|]; [|discriminate].
    cbn in Hm. injection Hm as <-.
    apply elem_of_cons in Ha as [->|Ha].
    + rewrite Hf in Hfa'. injection Hfa' as <-. left.
    + right. by apply IH.
Qed.

(** C8, as the code has it: the options list covers the current value
    when the value the device reports is one of the capabilities it
    reports.  For the vertical wind step the reported mode must not be a
    [bool] (whose [str] is not a numeral); the microwave descriptors have
    no value function. *)
Theorem options_cover_reported_value `{Wideq} (x : LGEDevice.t)
    (desc : ThinQSelectEntityDescription) :
  (desc ∈ AC_VSTEP_SELECT →
   ∀ ac, LGEDevice.device x = AirConditioner ac →
         ac_vertical_step_mode ac ∈ or_empty (ac_vertical_step_modes ac) →
         (∀ b, ac_vertical_step_mode ac ≠ PyBool b) →
         options_cover_value desc x) ∧
  (desc ∈ AC_AUTODRY_SELECT →
   ∀ ac, LGEDevice.device x = AirConditioner ac →
         ac_auto_dry_mode ac ∈ or_empty (ac_auto_dry_modes ac) →
         options_cover_value desc x) ∧
  (desc ∈ WASH_DEV_SELECT →
   ∀ w, LGEDevice.device x = WashDevice w →
        (∀ s, wm_selected_course w = Some s → s ∈ wm_course_list w) →
        options_cover_value desc x) ∧
  (desc ∈ MICROWAVE_SELECT → options_cover_value desc x).
Proof.
  split; [|split; [|split]].
  - intros ->%list_elem_of_singleton ac Hdev Hin Hnb f s opts [= <-] Hval Hopts.
    cbn [options_fn] in Hopts.
    rewrite (vstep_value_fn_ac x ac Hdev) in Hval.
    unfold vstep_options_fn, vertical_step_modes in Hopts. rewrite Hdev in Hopts.
    cbn [mbind result_bind] in Hopts.
    eapply mapM_result_elem; [exact Hopts|exact Hin|].
    destruct (ac_vertical_step_mode ac) as [|b|z|?|c m z|c m]; try discriminate.
    + by destruct (Hnb b).
    + cbn in Hval |- *. by destruct (_ && _); simplify_eq.
    + cbn in Hval |- *. by destruct (_ && _); simplify_eq.
  - intros ->%list_elem_of_singleton ac Hdev Hin f s opts [= <-] Hval Hopts.
    cbn [options_fn] in Hopts.
    rewrite (autodry_value_fn_ac x ac Hdev) in Hval.
    unfold autodry_options_fn, auto_dry_modes in Hopts. rewrite Hdev in Hopts.
    cbn [mbind result_bind] in Hopts.
    eapply mapM_result_elem; [exact Hopts|exact Hin|].
    unfold dict_item.
    destruct (dict_contains py_eq AUTO_DRY_LABEL (ac_auto_dry_mode ac));
      [|discriminate].
    assert (dict_get py_eq AUTO_DRY_LABEL (ac_auto_dry_mode ac) = Some s) as ->
      by congruence.
    done.
  - intros ->%list_elem_of_singleton w Hdev Hin f s opts [= <-] Hval Hopts.
    cbn [options_fn] in Hopts.
    unfold selected_course in Hval. unfold course_list in Hopts.
    rewrite Hdev in Hval, Hopts. simplify_eq. by apply Hin.
  - intros Hd f s opts Hf. exfalso.
    unfold MICROWAVE_SELECT in Hd.
    apply elem_of_cons in Hd as [->|Hd]; [discriminate|].
    apply list_elem_of_singleton in Hd as ->. discriminate.
Qed.

Lemma options_cover_reported_value_witness :
  options_cover_value (vstep_desc wideq_ok) (sample_ac (Some one_to_six) (PyInt 3)) ∧
  options_cover_value (autodry_desc wideq_ok) (sample_ac (Some one_to_six) (PyInt 3)) ∧
  options_cover_value (wash_desc wideq_ok) (sample_washer true) ∧
  options_cover_value (scroll_desc wideq_ok) (sample_microwave ∅ None true).
Proof.
  split; [|split; [|split]].
  - apply (proj1 (@options_cover_reported_value wideq_ok
                    (sample_ac (Some one_to_six) (PyInt 3)) (vstep_desc wideq_ok)))
      with (ac := {| ac_vertical_step_modes := Some one_to_six;
                     ac_vertical_step_mode := PyInt 3;
                     ac_auto_dry_modes := Some [ACAutoDryMode.OFF; ACAutoDryMode.AI];
                     ac_auto_dry_mode := ACAutoDryMode.AI |}).
    + left.
    + reflexivity.
    + cbn. do 2 right. left.
    + intros b. discriminate.
  - apply (proj1 (proj2 (@options_cover_reported_value wideq_ok
                    (sample_ac (Some one_to_six) (PyInt 3)) (autodry_desc wideq_ok))))
      with (ac := {| ac_vertical_step_modes := Some one_to_six;
                     ac_vertical_step_mode := PyInt 3;
                     ac_auto_dry_modes := Some [ACAutoDryMode.OFF; ACAutoDryMode.AI];
                     ac_auto_dry_mode := ACAutoDryMode.AI |}).
    + left.
    + reflexivity.
    + cbn. right. left.
  - apply (proj1 (proj2 (proj2 (@options_cover_reported_value wideq_ok
                    (sample_washer true) (wash_desc wideq_ok)))))
      with (w := {| wm_course_list := ["-"; "Cotton"; "Wool"];
                    wm_select_course_enabled := true;
                    wm_selected_course := Some "Cotton" |}).
    + left.
    + reflexivity.
    + intros s [= <-]. right. left.
  - apply (proj2 (proj2 (proj2 (@options_cover_reported_value wideq_ok
                    (sample_microwave ∅ None true) (scroll_desc wideq_ok))))).
    left.
Defined.

(** C8 as stated fails: an AC device that reports no
    [vertical_step_modes] and [vertical_step_mode = 3] gets the current
    value "3" from the registered vertical-wind-step descriptor and an
    empty options list. *)
Lemma options_superset_counterexample :
  ¬ (∀ (W : Wideq) (desc : ThinQSelectEntityDescription) (x : LGEDevice.t),
       @registered W desc → options_cover_value desc x).
Proof.
  intros Hall.
  assert (Hreg : @registered wideq_ok (vstep_desc wideq_ok)).
  { exists AC, (@AC_VSTEP_SELECT wideq_ok). split.
    - apply list_elem_of_lookup. exists 1%nat. reflexivity.
    - left. }
  specialize (Hall wideq_ok (vstep_desc wideq_ok) (sample_ac None (PyInt 3)) Hreg
                vstep_value_fn "3" [] eq_refl eq_refl eq_refl).
  by apply elem_of_nil in Hall.
Qed.

(** ** Unique identifiers *)

Lemma list_ascii_of_string_app (a b : string) :
  list_ascii_of_string (a +:+ b)
  = (list_ascii_of_string a ++ list_ascii_of_string b)%list.
Proof. induction a as [|c a IH]; simpl; [done|]. by rewrite IH. Qed.

Lemma list_ascii_of_string_inj (a b : string) :
  list_ascii_of_string a = list_ascii_of_string b → a = b.
Proof.
  intros Hab. rewrite <- (string_of_list_ascii_of_string a), Hab.
  apply string_of_list_ascii_of_string.
Qed.

Lemma hyphen_free_spec (s : string) :
  hyphen_free s = true ↔ "-"%char ∉ list_ascii_of_string s.
Proof.
  induction s as [|c s IH]; simpl.
  - split; [intros _; apply not_elem_of_nil|done].
  - rewrite not_elem_of_cons, andb_true_iff, negb_true_iff, IH.
    rewrite bool_decide_eq_false. split; intros [? ?]; split; auto.
Qed.

Lemma split_at_last_sep {A} (sep : A) (l1 l2 k1 k2 : list A) :
  sep ∉ k1 → sep ∉ k2 →
  (l1 ++ sep :: k1 = l2 ++ sep :: k2)%list →
  l1 = l2 ∧ k1 = k2.
Proof.
  intros Hk1 Hk2. revert l2.
  induction l1 as [|a l1 IH]; intros [|b l2] Heq; simpl in Heq.
  - by injection Heq.
  - injection Heq as <- ->. destruct Hk1. apply elem_of_app. right. left.
  - injection Heq as -> <-. destruct Hk2. apply elem_of_app. right. left.
  - injection Heq as <- Heq. destruct (IH _ Heq) as [-> ->]. done.
Qed.

Lemma unique_id_format_inj (u1 k1 u2 k2 : string) :
  hyphen_free k1 = true → hyphen_free k2 = true →
  u1 +:+ "-" +:+ k1 +:+ "-select" = u2 +:+ "-" +:+ k2 +:+ "-select" →
  u1 = u2 ∧ k1 = k2.
Proof.
  intros Hk1%hyphen_free_spec Hk2%hyphen_free_spec Heq.
  apply (f_equal list_ascii_of_string) in Heq.
  rewrite !list_ascii_of_string_app in Heq.
  rewrite !(assoc_L (++) _ _ (list_ascii_of_string "-select")) in Heq.
  apply app_inv_tail in Heq.
  change (list_ascii_of_string "-") with ["-"%char] in Heq.
  destruct (split_at_last_sep _ _ _ _ _ Hk1 Hk2 Heq) as [Hu Hk].
  split; by apply list_ascii_of_string_inj.
Qed.

(** C9, as the code has it: when neither descriptor key contains the
    separator "-", two entities have the same unique identifier exactly
    when their devices have the same [unique_id] and their descriptors the
    same key. *)
Theorem unique_id_injective (api1 api2 : LGEDevice.t)
    (d1 d2 : ThinQSelectEntityDescription) (e1 e2 : LGESelect) :
  hyphen_free (key d1) = true →
  hyphen_free (key d2) = true →
  __init__ api1 d1 = Ok e1 →
  __init__ api2 d2 = Ok e2 →
  (_attr_unique_id e1 = _attr_unique_id e2 ↔
   LGEDevice.unique_id api1 = LGEDevice.unique_id api2 ∧ key d1 = key d2).
Proof.
  intros Hk1 Hk2 (_ & _ & -> & _)%init_fields (_ & _ & -> & _)%init_fields.
  split.
  - by apply unique_id_format_inj.
  - by intros [-> ->].
Qed.

Lemma unique_id_injective_witness :
  _attr_unique_id (entity_of (device_with_id "AC:0f1e-77") (keyed_desc "mode") [])
  = _attr_unique_id (entity_of (device_with_id "AC:0f1e") (keyed_desc "mode") []) ↔
  LGEDevice.unique_id (device_with_id "AC:0f1e-77")
  = LGEDevice.unique_id (device_with_id "AC:0f1e") ∧
  key (keyed_desc "mode") = key (keyed_desc "mode").
Proof.
  apply (unique_id_injective (device_with_id "AC:0f1e-77") (device_with_id "AC:0f1e")
           (keyed_desc "mode") (keyed_desc "mode")).
  - reflexivity.
  - reflexivity.
  - reflexivity.
  - reflexivity.
Defined.

(** C9 as stated fails when a key contains the separator: the device
    "AC:0f1e-77" with key "mode" and the device "AC:0f1e" with key
    "77-mode" get the same unique identifier. *)
Lemma unique_id_counterexample :
  ¬ (∀ (api1 api2 : LGEDevice.t) (d1 d2 : ThinQSelectEntityDescription)
       (e1 e2 : LGESelect),
       __init__ api1 d1 = Ok e1 →
       __init__ api2 d2 = Ok e2 →
       (_attr_unique_id e1 = _attr_unique_id e2 ↔
        LGEDevice.unique_id api1 = LGEDevice.unique_id api2 ∧ key d1 = key d2)).
Proof.
  intros Hall.
  specialize (Hall (device_with_id "AC:0f1e-77") (device_with_id "AC:0f1e")
                (keyed_desc "mode") (keyed_desc "77-mode")
                (entity_of (device_with_id "AC:0f1e-77") (keyed_desc "mode") [])
                (entity_of (device_with_id "AC:0f1e") (keyed_desc "77-mode") [])
                eq_refl eq_refl).
  destruct Hall as [Hall _]. destruct (Hall eq_refl) as [_ Hkey].
  discriminate Hkey.
Qed.

(** The keys written out in the descriptor tables of this module are
    free of the separator. *)
Lemma literal_keys_hyphen_free `{Wideq} (desc : ThinQSelectEntityDescription) :
  desc ∈ (WASH_DEV_SELECT ++ AC_VSTEP_SELECT ++ AC_AUTODRY_SELECT)%list →
  hyphen_free (key desc) = true.
Proof.
  intros Hd. repeat (apply elem_of_cons in Hd as [->|Hd]; [reflexivity|]).
  by apply elem_of_nil in Hd.
Qed.

(** ** Dict lemmas *)

Section DictFacts.
Context {K V : Type} (eqb : K → K → bool).
Hypothesis eqb_eq : ∀ a b, eqb a b = true ↔ a = b.

Lemma eqb_false (a b : K) : eqb a b = false ↔ a ≠ b.
Proof.
  destruct (eqb a b) eqn:Hab.
  - apply eqb_eq in Hab. split; [done|]. by intros [].
  - split; [|done]. intros _ Heq. apply eqb_eq in Heq. congruence.
Qed.

Lemma dict_get_absent (d : list (K * V)) (k : K) :
  k ∉ d.*1 → dict_get eqb d k = None.
Proof.
  induction d as [|[k' v'] d IH]; simpl; [done|].
  intros [Hne Hd]%not_elem_of_cons.
  assert (eqb k' k = false) as -> by (apply eqb_false; congruence).
  by apply IH.
Qed.

Lemma dict_set_keys (d : list (K * V)) (k k' : K) (v : V) :
  k' ∈ (dict_set eqb d k v).*1 ↔ k' = k ∨ k' ∈ d.*1.
Proof.
  induction d as [|[k0 v0] d IH]; simpl.
  - rewrite list_elem_of_singleton, elem_of_nil. tauto.
  - destruct (eqb k0 k) eqn:Hk; simpl.
    + apply eqb_eq in Hk as ->. rewrite elem_of_cons. tauto.
    + rewrite !elem_of_cons, IH. tauto.
Qed.

Lemma dict_set_NoDup (d : list (K * V)) (k : K) (v : V) :
  NoDup d.*1 → NoDup (dict_set eqb d k v).*1.
Proof.
  induction d as [|[k0 v0] d IH]; simpl.
  - intros _. apply NoDup_singleton.
  - intros [Hk0 Hd]%NoDup_cons. destruct (eqb k0 k) eqn:Hk; simpl.
    + by apply NoDup_cons.
    + apply NoDup_cons. split; [|by apply IH].
      rewrite dict_set_keys. intros [->|?]; [|done].
      apply eqb_false in Hk. done.
Qed.

Lemma dict_get_set_ne (d : list (K * V)) (k k' : K) (v : V) :
  k ≠ k' → dict_get eqb (dict_set eqb d k v) k' = dict_get eqb d k'.
Proof.
  intros Hne. induction d as [|[k0 v0] d IH]; simpl.
  - by assert (eqb k k' = false) as -> by by apply eqb_false.
  - destruct (eqb k0 k) eqn:Hk; simpl.
    + apply eqb_eq in Hk as ->.
      by assert (eqb k k' = false) as -> by by apply eqb_false.
    + by rewrite IH.
Qed.

Lemma dict_fold_keys (items d : list (K * V)) (k : K) :
  k ∈ (foldl (λ d kv, dict_set eqb d kv.1 kv.2) d items).*1 →
  k ∈ d.*1 ∨ k ∈ items.*1.
Proof.
  revert d. induction items as [|[k0 v0] items IH]; intros d; simpl; [tauto|].
  intros [Hk|Hk]%IH.
  - apply dict_set_keys in Hk as [->|Hk]; [right; left|by left].
  - right. by right.
Qed.

Lemma dict_fold_NoDup (items d : list (K * V)) :
  NoDup d.*1 → NoDup (foldl (λ d kv, dict_set eqb d kv.1 kv.2) d items).*1.
Proof.
  revert d. induction items as [|[k0 v0] items IH]; intros d Hd; simpl; [done|].
  apply IH. by apply dict_set_NoDup.
Qed.

Lemma dict_fold_get_other (items d : list (K * V)) (k : K) :
  k ∉ items.*1 →
  dict_get eqb (foldl (λ d kv, dict_set eqb d kv.1 kv.2) d items) k
  = dict_get eqb d k.
Proof.
  revert d. induction items as [|[k0 v0] items IH]; intros d; simpl; [done|].
  intros [Hne Hk]%not_elem_of_cons.
  rewrite IH by done. apply dict_get_set_ne. congruence.
Qed.

(** A comprehension over the items of a dict in which only the key [k0]
    contributes reduces to the contribution of the entry of [k0]. *)
Lemma dict_bind_single {B} (d : list (K * V)) (k0 : K) (v : V)
    (g : K * V → list B) :
  NoDup d.*1 →
  dict_get eqb d k0 = Some v →
  (∀ k v', k ≠ k0 → g (k, v') = []) →
  d ≫= g = g (k0, v).
Proof.
  intros Hnd Hget Hg. induction d as [|[k1 v1] d IH]; [done|].
  simpl in Hget, Hnd. apply NoDup_cons in Hnd as [Hk1 Hnd].
  change (((k1, v1) :: d) ≫= g) with (g (k1, v1) ++ (d ≫= g))%list.
  destruct (eqb k1 k0) eqn:Hk.
  - apply eqb_eq in Hk as ->. injection Hget as ->.
    assert (d ≫= g = []) as ->; [|by rewrite app_nil_r].
    clear IH Hnd. induction d as [|[k2 v2] d IH]; [done|].
    apply not_elem_of_cons in Hk1 as [Hne Hk1].
    change (((k2, v2) :: d) ≫= g) with (g (k2, v2) ++ (d ≫= g))%list.
    rewrite Hg by done. by apply IH.
  - apply eqb_false in Hk. rewrite Hg by done. by apply IH.
Qed.

End DictFacts.

Lemma DeviceType_eqb_eq (a b : DeviceType) : DeviceType_eqb a b = true ↔ a = b.
Proof. unfold DeviceType_eqb. apply bool_decide_eq_true. Qed.

(** ** Discovery *)

Lemma SELECT_ENTITIES_NoDup `{Wideq} : NoDup SELECT_ENTITIES.*1.
Proof.
  unfold SELECT_ENTITIES, dict_of_items.
  apply (dict_fold_NoDup _ DeviceType_eqb_eq). apply NoDup_nil_2.
Qed.

Lemma SELECT_ENTITIES_AC `{Wideq} :
  AC ∉ WM_DEVICE_TYPES →
  dict_get DeviceType_eqb SELECT_ENTITIES AC = Some AC_VSTEP_SELECT.
Proof.
  intros Hwm. unfold SELECT_ENTITIES, dict_of_items at 1.
  rewrite foldl_app.
  rewrite (dict_fold_get_other _ DeviceType_eqb_eq); [reflexivity|].
  intros [Hin|Hin]%(dict_fold_keys _ DeviceType_eqb_eq).
  - by apply elem_of_nil in Hin.
  - rewrite <- list_fmap_compose in Hin. apply list_elem_of_fmap in Hin.
    destruct Hin as (t & Heq & Hin). simpl in Heq. by subst t.
Qed.

Lemma discovered_pairs_single_AC `{Wideq} (api : LGEDevice.t) :
  AC ∉ WM_DEVICE_TYPES →
  discovered_pairs [(AC, [api])]
  = select_desc ← AC_VSTEP_SELECT;
    if _select_exist api select_desc then [(api, select_desc)] else [].
Proof.
  intros Hwm. unfold discovered_pairs.
  rewrite (dict_bind_single _ DeviceType_eqb_eq SELECT_ENTITIES AC AC_VSTEP_SELECT).
  - reflexivity.
  - apply SELECT_ENTITIES_NoDup.
  - by apply SELECT_ENTITIES_AC.
  - intros k descs Hk. cbn [dict_get].
    assert (DeviceType_eqb AC k = false) as ->.
    { apply (eqb_false _ DeviceType_eqb_eq). congruence. }
    cbn [default]. induction descs as [|d descs IH]; [done|]. exact IH.
Qed.

(** C5 (the code departs from it): for an AC device whose
    [vertical_step_modes] is empty or [None], discovery does construct the
    vertical-wind-step entity, with an empty options list; only its
    availability is false. *)
Theorem vstep_entity_materialized `{Wideq} (api : LGEDevice.t)
    (ac : AirConditionerDevice) :
  AC ∉ WM_DEVICE_TYPES →
  LGEDevice.device api = AirConditioner ac →
  list_truthy (ac_vertical_step_modes ac) = false →
  ∃ self, _async_discover_device [(AC, [api])] = Ok (Some [self]) ∧
          _api self = api ∧
          entity_description self ∈ AC_VSTEP_SELECT ∧
          _attr_options self = [] ∧
          available self = Ok false.
Proof.
  intros Hwm Hdev Hmodes.
  assert (Hopts : vstep_options_fn api = Ok []).
  { unfold vstep_options_fn, vertical_step_modes. rewrite Hdev.
    cbn [mbind result_bind].
    by destruct (ac_vertical_step_modes ac) as [[|m l]|]. }
  assert (Havail : vstep_available_fn api = Ok false).
  { unfold vstep_available_fn, vertical_step_modes. rewrite Hdev.
    cbn [mbind result_bind]. by rewrite Hmodes. }
  unfold _async_discover_device.
  rewrite discovered_pairs_single_AC by done.
  unfold AC_VSTEP_SELECT at 1. cbn [mbind list_bind _select_exist value_fn app].
  cbn [mapM fst snd]. unfold __init__ at 1. cbn [options_fn key].
  rewrite Hopts. cbn [mbind result_bind mret result_ret].
  eexists. split; [reflexivity|]. cbn [_api entity_description _attr_options].
  split; [done|]. split; [left|]. split; [done|].
  unfold available. cbn [entity_description available_fn _api].
  rewrite Havail. cbn [mbind result_bind mret result_ret].
  by rewrite andb_false_r.
Qed.

Lemma vstep_entity_materialized_witness :
  ∃ self,
    @_async_discover_device wideq_ok [(AC, [sample_ac (Some []) PyNone])]
    = Ok (Some [self]) ∧
    _api self = sample_ac (Some []) PyNone ∧
    entity_description self ∈ @AC_VSTEP_SELECT wideq_ok ∧
    _attr_options self = [] ∧
    available self = Ok false.
Proof.
  apply (@vstep_entity_materialized wideq_ok (sample_ac (Some []) PyNone)
           {| ac_vertical_step_modes := Some [];
              ac_vertical_step_mode := PyNone;
              ac_auto_dry_modes := Some [ACAutoDryMode.OFF; ACAutoDryMode.AI];
              ac_auto_dry_mode := ACAutoDryMode.AI |}).
  - intros Hin. repeat (apply elem_of_cons in Hin as [Hin|Hin]; [discriminate|]).
    by apply elem_of_nil in Hin.
  - reflexivity.
  - reflexivity.
Defined.

(** The same with [vertical_step_modes] absent, evaluated. *)
Example discover_ac_without_vstep :
  @_async_discover_device wideq_ok [(AC, [sample_ac None PyNone])]
  = Ok (Some [entity_of (sample_ac None PyNone) (vstep_desc wideq_ok) []]).
Proof. reflexivity. Qed.

(** Nothing is registered, and no entity built, for an empty device
    dict. *)
Example discover_nothing :
  @_async_discover_device wideq_ok [] = Ok None.
Proof. reflexivity. Qed.

(** ** Decimal round trip *)

Lemma pretty_N_char_digit (d : N) :
  (d < 10)%N →
  digit_val (pretty_N_char d) = Some (Z.of_N d) ∧
  is_space (pretty_N_char d) = false ∧
  pretty_N_char d ≠ "-"%char ∧
  pretty_N_char d ≠ "+"%char.
Proof.
  intros Hd.
  assert (d = 0 ∨ d = 1 ∨ d = 2 ∨ d = 3 ∨ d = 4 ∨ d = 5 ∨ d = 6 ∨ d = 7
          ∨ d = 8 ∨ d = 9)%N as Hcases by lia.
  repeat (destruct Hcases as [->|Hcases]); try subst d; by vm_compute.
Qed.

Lemma pretty_N_go_digits (x : N) (s : string) :
  ∃ ds : list ascii,
    list_ascii_of_string (pretty_N_go x s) = (ds ++ list_ascii_of_string s)%list ∧
    Forall (λ c, ∃ d, (d < 10)%N ∧ c = pretty_N_char d) ds ∧
    (x = 0%N → ds = []) ∧
    ((0 < x)%N →
     ds ≠ [] ∧
     ∀ acc b rest,
       parse_digits acc b (ds ++ rest)%list
       = parse_digits (acc * 10 ^ Z.of_nat (List.length ds) + Z.of_N x)%Z true rest).
Proof.
  revert s. induction (N.lt_wf_0 x) as [x _ IH]. intros s.
  destruct (decide (x = 0)%N) as [->|Hx].
  { exists []. rewrite pretty_N_go_0. repeat split; [constructor|lia|lia]. }
  assert (0 < x)%N as Hpos by lia.
  rewrite pretty_N_go_step by done.
  set (c := pretty_N_char (x `mod` 10)).
  destruct (IH (x `div` 10)%N (N.div_lt x 10 Hpos eq_refl) (String c s))
    as (ds & Hds & Hall & Hzero & Hparse).
  assert (x `mod` 10 < 10)%N as Hmod by (apply N.mod_lt; lia).
  destruct (pretty_N_char_digit _ Hmod) as (Hdv & _).
  exists (ds ++ [c])%list. split; [|split; [|split]].
  - rewrite Hds. simpl. by rewrite <- (assoc_L (++)).
  - apply Forall_app. split; [done|]. repeat constructor. by exists (x `mod` 10)%N.
  - intros H0. by destruct Hx.
  - intros _. split; [by destruct ds|]. intros acc b rest.
    rewrite <- (assoc_L (++)). cbn [app].
    destruct (decide (x `div` 10 = 0)%N) as [Hdiv|Hdiv].
    + rewrite (Hzero Hdiv). cbn [app List.length parse_digits]. fold c. 
      unfold c at 1. rewrite Hdv. f_equal.
      assert (x `mod` 10 = x)%N as -> by (apply N.mod_small; apply N.div_small_iff; lia).
      lia.
    + assert (0 < x `div` 10)%N as Hdpos by by apply N.neq_0_lt_0.
      destruct (Hparse Hdpos) as [_ ->].
      cbn [parse_digits]. unfold c. rewrite Hdv. f_equal.
      rewrite length_app. cbn [List.length].
      rewrite Nat2Z.inj_add, Z.pow_add_r by lia.
      rewrite (N.div_mod x 10) at 3 by lia. rewrite N2Z.inj_add, N2Z.inj_mul. 
      change (10 ^ Z.of_nat 1)%Z with 10%Z. change (Z.of_N 10) with 10%Z. lia.
Qed.

Lemma parse_int_pretty_pos (p : positive) (neg : bool) :
  parse_int ((if neg then "-" else "") +:+ pretty (N.pos p))
  = Some (if neg then Z.neg p else Z.pos p).
Proof.
  unfold pretty, pretty_N. destruct (decide (N.pos p = 0%N)) as [|_]; [done|].
  destruct (pretty_N_go_digits (N.pos p) "") as (ds & Hds & Hall & _ & Hparse).
  destruct (Hparse eq_refl) as [Hne Hp]. clear Hparse.
  rewrite app_nil_r in Hds.
  destruct ds as [|c ds]; [done|].
  apply Forall_cons in Hall as [(d & Hd & ->) _].
  destruct (pretty_N_char_digit d Hd) as (_ & Hsp & Hminus & Hplus).
  specialize (Hp 0%Z false []). rewrite app_nil_r in Hp.
  unfold parse_int. destruct neg.
  - change (list_ascii_of_string ("-" +:+ pretty_N_go (N.pos p) ""))
      with ("-"%char :: list_ascii_of_string (pretty_N_go (N.pos p) "")).
    rewrite Hds. cbn [skip_space]. change (is_space "-") with false.
    cbv iota. rewrite bool_decide_eq_true_2 by done.
    rewrite Hp. cbn [parse_digits skip_space]. f_equal; lia.
  - change ("" +:+ pretty_N_go (N.pos p) "") with (pretty_N_go (N.pos p) "").
    rewrite Hds. cbn [skip_space]. rewrite Hsp.
    rewrite !bool_decide_eq_false_2 by done.
    rewrite Hp. cbn [parse_digits skip_space]. f_equal; lia.
Qed.

Lemma parse_int_pretty (z : Z) : parse_int (pretty z) = Some z.
Proof.
  destruct z as [|p|p].
  - reflexivity.
  - apply (parse_int_pretty_pos p false).
  - apply (parse_int_pretty_pos p true).
Qed.

Lemma int_str_round_trip_helper (z : Z) :
  py_int (PyStr (py_str (PyInt z))) = Ok z.
Proof. cbn [py_str py_int]. by rewrite parse_int_pretty. Qed.


(** ** List comprehensions that may raise *)

Lemma mapM_result_Ok {A B} (f : A → result B) (l : list A) (k : list B) :
  mapM f l = Ok k ↔ Forall2 (λ a b, f a = Ok b) l k.
Proof.
  revert k. induction l as [|a l IH]; intros k; cbn [mapM].
  - split.
    + intros [= <-]. constructor.
    + intros Hk. by inversion Hk.
  - unfold mbind, result_bind. destruct (f a) as [b|e] eqn:Hfa.
    + destruct (mapM f l) as [k'|e'] eqn:Hm.
      * split.
        -- intros [= <-]. constructor; [done|]. by apply IH.
        -- intros Hk. inversion Hk as [|? b' ? k'' Hb Hk']; subst.
           apply IH in Hk'. rewrite Hfa in Hb. by simplify_eq.
      * split; [done|]. intros Hk. inversion Hk as [|? b' ? k'' Hb Hk']; subst.
        apply IH in Hk'. done.
    + split; [done|]. intros Hk. inversion Hk; congruence.
Qed.

Lemma mapM_result_Raise {A B} (f : A → result B) (l : list A) (e : exn) :
  mapM f l = Raise e →
  ∃ l1 a l2, l = (l1 ++ a :: l2)%list ∧ f a = Raise e ∧
             Forall (λ a', ∃ b, f a' = Ok b) l1.
Proof.
  induction l as [|a l IH]; cbn [mapM]; [done|].
  unfold mbind, result_bind. destruct (f a) as [b|e'] eqn:Hfa.
  - destruct (mapM f l) as [k'|e''] eqn:Hm; [done|].
    intros [= ->]. destruct (IH eq_refl) as (l1 & a' & l2 & -> & Hfa' & Hl1).
    exists (a :: l1), a', l2. split; [done|]. split; [done|].
    constructor; eauto.
  - intros [= ->]. exists [], a, l. split; [done|]. split; [done|]. constructor.
Qed.


(** ** Option changes of the descriptors of this module *)

Lemma with_api_same (self : LGESelect) : with_api self (_api self) = self.
Proof. by destruct self. Qed.

Lemma select_via_call `{Wideq} (self : LGESelect) (option : string)
    (trace : list Event) (c : DeviceCall) :
  (∀ w, select_option_fn (entity_description self) option w = call c w) →
  async_select_option self option trace = write_outcome self c trace.
Proof.
  intros Hfn. unfold async_select_option, write_outcome.
  rewrite select_option_body_unfold, Hfn. unfold call. cbn [w_api w_trace].
  destruct (remote c (_api self)) as [[[]|e] api']; [|reflexivity].
  unfold async_set_updated. cbn [w_api w_trace].
  by rewrite <- (assoc_L (++)).
Qed.

Lemma select_via_raise (self : LGESelect) (option : string)
    (trace : list Event) (e : exn) :
  (∀ w, select_option_fn (entity_description self) option w = (Raise e, w)) →
  async_select_option self option trace = (Raise e, self, trace).
Proof.
  intros Hfn. unfold async_select_option.
  rewrite select_option_body_unfold, Hfn. cbn [w_api w_trace].
  by rewrite with_api_same.
Qed.

Lemma vstep_select_option_fn_unfold `{Wideq} (option : string) (w : World) :
  vstep_select_option_fn option w
  = match py_int (PyStr option) with
    | Ok n => call (set_vertical_step_mode n) w
    | Raise e => (Raise e, w)
    end.
Proof.
  unfold vstep_select_option_fn, mbind, M_bind, lift.
  by destruct (py_int (PyStr option)).
Qed.

Lemma autodry_select_option_fn_unfold `{Wideq} (option : string) (w : World) :
  autodry_select_option_fn option w
  = match dict_item (λ a b : string, bool_decide (a = b)) AUTO_DRY_FROM_LABEL option with
    | Ok mode => call (set_auto_dry_mode mode) w
    | Raise e => (Raise e, w)
    end.
Proof.
  unfold autodry_select_option_fn, mbind, M_bind, lift.
  by destruct (dict_item _ AUTO_DRY_FROM_LABEL option).
Qed.

Lemma vstep_options_fn_ac (x : LGEDevice.t) (ac : AirConditionerDevice) :
  LGEDevice.device x = AirConditioner ac →
  vstep_options_fn x
  = mapM (λ m, n ← py_int m; mret (py_str (PyInt n)))
      (or_empty (ac_vertical_step_modes ac)).
Proof. unfold vstep_options_fn, vertical_step_modes. by intros ->. Qed.

Lemma vstep_option_of_mode (m : pyval) (r : result string) :
  (n ← py_int m; mret (py_str (PyInt n))) = r →
  match r with
  | Ok s => ∃ n, py_int m = Ok n ∧ s = py_str (PyInt n)
  | Raise e => py_int m = Raise e
  end.
Proof. intros <-. destruct (py_int m) as [n|e]; cbn; eauto. Qed.



(** X3: every option the vertical-step entity offers was derived from a
    reported step mode, and selecting it sends the device write
    [set_vertical_step_mode] with the integer of that mode. *)
Theorem vstep_option_round_trip `{Wideq} (api : LGEDevice.t)
    (ac : AirConditionerDevice) (desc : ThinQSelectEntityDescription)
    (self : LGESelect) (trace : list Event) (s : string) :
  desc ∈ AC_VSTEP_SELECT →
  LGEDevice.device api = AirConditioner ac →
  __init__ api desc = Ok self →
  s ∈ _attr_options self →
  ∃ m n, m ∈ or_empty (ac_vertical_step_modes ac) ∧
         py_int m = Ok n ∧
         s = py_str (PyInt n) ∧
         async_select_option self s trace
         = write_outcome self (set_vertical_step_mode n) trace.
Proof.
  intros ->%list_elem_of_singleton Hdev (Hapi & Hd & _ & Hopts)%init_fields Hs.
  cbn [options_fn] in Hopts.
  rewrite (vstep_options_fn_ac api ac Hdev) in Hopts.
  apply mapM_result_Ok in Hopts.
  destruct (proj1 (list_elem_of_lookup _ _) Hs) as [i Hi].
  destruct (Forall2_lookup_r _ _ _ _ _ Hopts Hi) as (m & Hm & Hms).
  destruct (vstep_option_of_mode m (Ok s) Hms) as (n & Hn & ->).
  exists m, n. split; [by eapply list_elem_of_lookup_2|]. split; [done|].
  split; [done|]. apply select_via_call. intros w. rewrite Hd.
  cbn [select_option_fn]. rewrite vstep_select_option_fn_unfold.
  by rewrite int_str_round_trip_helper.
Qed.

Lemma vstep_option_round_trip_witness :
  ∃ m n, m ∈ or_empty (Some one_to_six) ∧
         py_int m = Ok n ∧
         "5" = py_str (PyInt n) ∧
         async_select_option
           (entity_of (sample_ac (Some one_to_six) (PyInt 3)) (vstep_desc wideq_ok)
              ["1"; "2"; "3"; "4"; "5"; "6"])
           "5" []
         = @write_outcome wideq_ok
             (entity_of (sample_ac (Some one_to_six) (PyInt 3)) (vstep_desc wideq_ok)
                ["1"; "2"; "3"; "4"; "5"; "6"])
             (set_vertical_step_mode n) [].
Proof.
  apply (@vstep_option_round_trip wideq_ok
           (sample_ac (Some one_to_six) (PyInt 3))
           {| ac_vertical_step_modes := Some one_to_six;
              ac_vertical_step_mode := PyInt 3;
              ac_auto_dry_modes := Some [ACAutoDryMode.OFF; ACAutoDryMode.AI];
              ac_auto_dry_mode := ACAutoDryMode.AI |}
           (vstep_desc wideq_ok)).
  - left.
  - reflexivity.
  - vm_compute. reflexivity.
  - cbn [_attr_options entity_of]. do 4 right. left.
Defined.

(** ** The auto-dry labels *)

Lemma AUTO_DRY_FROM_LABEL_items :
  AUTO_DRY_FROM_LABEL =
  [ ("꺼짐", ACAutoDryMode.OFF);
    ("10분", ACAutoDryMode.MIN_10);
    ("30분", ACAutoDryMode.MIN_30);
    ("60분", ACAutoDryMode.MIN_60);
    ("AI건조", ACAutoDryMode.AI) ].
Proof. reflexivity. Qed.

Local Ltac mode_found :=
  split;
  [ intros [= <-]; repeat ((left; reflexivity) || right)
  | intros Hor; repeat (destruct Hor as [Hor|Hor]); by inversion Hor ].

Lemma auto_dry_from_label_get (l : string) (m : pyval) :
  dict_get (λ a b : string, bool_decide (a = b)) AUTO_DRY_FROM_LABEL l = Some m ↔
  (m, l) ∈ AUTO_DRY_LABEL.
Proof.
  rewrite AUTO_DRY_FROM_LABEL_items, AUTO_DRY_LABEL_items. cbn [dict_get].
  rewrite !elem_of_cons, elem_of_nil.
  destruct (bool_decide_reflect ("꺼짐" = l)) as [<-|?]; [mode_found|].
  destruct (bool_decide_reflect ("10분" = l)) as [<-|?]; [mode_found|].
  destruct (bool_decide_reflect ("30분" = l)) as [<-|?]; [mode_found|].
  destruct (bool_decide_reflect ("60분" = l)) as [<-|?]; [mode_found|].
  destruct (bool_decide_reflect ("AI건조" = l)) as [<-|?]; [mode_found|].
  split; [done|].
  intros Hor; repeat (destruct Hor as [Hor|Hor]); try done;
    inversion Hor; congruence.
Qed.

(** X4: the two auto-dry tables are inverse to each other: a mode has
    the label [l] in [AUTO_DRY_LABEL] exactly when [AUTO_DRY_FROM_LABEL]
    maps [l] back to that mode. *)
Theorem auto_dry_tables_inverse (m : pyval) (l : string) :
  dict_get py_eq AUTO_DRY_LABEL m = Some l ↔
  dict_get (λ a b : string, bool_decide (a = b)) AUTO_DRY_FROM_LABEL l = Some m.
Proof. by rewrite auto_dry_label_get, auto_dry_from_label_get. Qed.

Lemma autodry_options_fn_ac (x : LGEDevice.t) (ac : AirConditionerDevice) :
  LGEDevice.device x = AirConditioner ac →
  autodry_options_fn x
  = mapM (λ m, dict_item py_eq AUTO_DRY_LABEL m) (or_empty (ac_auto_dry_modes ac)).
Proof. unfold autodry_options_fn, auto_dry_modes. by intros ->. Qed.

Lemma auto_dry_label_item (m : pyval) :
  (∀ s, dict_item py_eq AUTO_DRY_LABEL m = Ok s ↔ (m, s) ∈ AUTO_DRY_LABEL) ∧
  (∀ e, dict_item py_eq AUTO_DRY_LABEL m = Raise e →
        e = KeyError ∧ ∀ s, (m, s) ∉ AUTO_DRY_LABEL).
Proof.
  unfold dict_item. destruct (dict_get py_eq AUTO_DRY_LABEL m) as [s'|] eqn:Hget.
  - apply auto_dry_label_get in Hget as Hin. split; [|done].
    intros s. split.
    + by intros [= <-].
    + intros Hs%auto_dry_label_get. congruence.
  - split.
    + intros s. split; [done|]. intros Hs%auto_dry_label_get. congruence.
    + intros e [= <-]. split; [done|].
      intros s Hs%auto_dry_label_get. congruence.
Qed.

(** X5: on an AC device the auto-dry options function returns a list
    exactly when every reported auto-dry mode is one of the labelled
    members, and then the list holds their labels position by position; a
    reported mode without a label makes it raise [KeyError]. *)
Theorem autodry_options_fn_spec (x : LGEDevice.t) (ac : AirConditionerDevice) :
  LGEDevice.device x = AirConditioner ac →
  (∀ opts, autodry_options_fn x = Ok opts ↔
           Forall2 (λ m s, (m, s) ∈ AUTO_DRY_LABEL)
             (or_empty (ac_auto_dry_modes ac)) opts) ∧
  (∀ e, autodry_options_fn x = Raise e →
        e = KeyError ∧
        ∃ m, m ∈ or_empty (ac_auto_dry_modes ac) ∧ ∀ s, (m, s) ∉ AUTO_DRY_LABEL).
Proof.
  intros Hdev. rewrite (autodry_options_fn_ac x ac Hdev). split.
  - intros opts. rewrite mapM_result_Ok. split; intros Hall;
      (eapply Forall2_impl; [exact Hall|]); intros m s Hms;
      by apply (proj1 (auto_dry_label_item m)).
  - intros e (l1 & m & l2 & Hl & Hm & _)%mapM_result_Raise.
    destruct (proj2 (auto_dry_label_item m) e Hm) as [-> Hnone].
    split; [done|]. exists m. split; [|done].
    rewrite Hl. apply elem_of_app. right. left.
Qed.

Lemma autodry_options_fn_spec_witness :
  Forall2 (λ m s, (m, s) ∈ AUTO_DRY_LABEL)
    (or_empty (Some [ACAutoDryMode.OFF; ACAutoDryMode.AI])) ["꺼짐"; "AI건조"] ∧
  (KeyError = KeyError ∧
   ∃ m, m ∈ or_empty (Some [ACAutoDryMode.member "MIN_120"]) ∧
        ∀ s, (m, s) ∉ AUTO_DRY_LABEL).
Proof.
  split.
  - apply (proj1 (proj1 (autodry_options_fn_spec (sample_ac None PyNone)
                    {| ac_vertical_step_modes := None;
                       ac_vertical_step_mode := PyNone;
                       ac_auto_dry_modes := Some [ACAutoDryMode.OFF; ACAutoDryMode.AI];
                       ac_auto_dry_mode := ACAutoDryMode.AI |}
                    eq_refl)
             ["꺼짐"; "AI건조"])).
    reflexivity.
  - apply (proj2 (autodry_options_fn_spec
                    (LGEDevice.mk "AC:0f1e" true ∅ None
                       (AirConditioner
                          {| ac_vertical_step_modes := None;
                             ac_vertical_step_mode := PyNone;
                             ac_auto_dry_modes := Some [ACAutoDryMode.member "MIN_120"];
                             ac_auto_dry_mode := PyNone |})
                       "LG air conditioner")
                    {| ac_vertical_step_modes := None;
                       ac_vertical_step_mode := PyNone;
                       ac_auto_dry_modes := Some [ACAutoDryMode.member "MIN_120"];
                       ac_auto_dry_mode := PyNone |}
                    eq_refl)
             KeyError).
    reflexivity.
Defined.

(** X6: every option the auto-dry entity offers is the label of a
    reported auto-dry mode, and selecting it sends the device write
    [set_auto_dry_mode] with that mode; selecting the label the
    value function currently returns writes the currently reported mode. *)
Theorem autodry_option_round_trip `{Wideq} (api : LGEDevice.t)
    (ac : AirConditionerDevice) (desc : ThinQSelectEntityDescription)
    (self : LGESelect) (trace : list Event) (s : string) :
  desc ∈ AC_AUTODRY_SELECT →
  LGEDevice.device api = AirConditioner ac →
  __init__ api desc = Ok self →
  (s ∈ _attr_options self →
   ∃ m, m ∈ or_empty (ac_auto_dry_modes ac) ∧
        (m, s) ∈ AUTO_DRY_LABEL ∧
        async_select_option self s trace
        = write_outcome self (set_auto_dry_mode m) trace) ∧
  (current_option self = Ok (Some s) →
   async_select_option self s trace
   = write_outcome self (set_auto_dry_mode (ac_auto_dry_mode ac)) trace).
Proof.
  intros ->%list_elem_of_singleton Hdev (Hapi & Hd & _ & Hopts)%init_fields.
  cbn [options_fn] in Hopts.
  assert (Hsel : ∀ m, (m, s) ∈ AUTO_DRY_LABEL →
            async_select_option self s trace
            = write_outcome self (set_auto_dry_mode m) trace).
  { intros m Hm. apply select_via_call. intros w. rewrite Hd.
    cbn [select_option_fn]. rewrite autodry_select_option_fn_unfold.
    unfold dict_item.
    by rewrite (proj2 (auto_dry_from_label_get s m) Hm). }
  split.
  - intros Hs.
    rewrite (autodry_options_fn_ac api ac Hdev) in Hopts.
    apply mapM_result_Ok in Hopts.
    destruct (proj1 (list_elem_of_lookup _ _) Hs) as [i Hi].
    destruct (Forall2_lookup_r _ _ _ _ _ Hopts Hi) as (m & Hm & Hlabel).
    apply (proj1 (auto_dry_label_item m)) in Hlabel.
    exists m. split; [by eapply list_elem_of_lookup_2|]. split; [done|].
    by apply Hsel.
  - unfold current_option. rewrite Hd, Hapi. cbn [value_fn].
    rewrite (autodry_value_fn_ac api ac Hdev). intros Hcur. apply Hsel.
    apply auto_dry_label_get.
    destruct (dict_contains py_eq AUTO_DRY_LABEL (ac_auto_dry_mode ac));
      congruence.
Qed.

Lemma autodry_option_round_trip_witness :
  (∃ m, m ∈ or_empty (Some [ACAutoDryMode.OFF; ACAutoDryMode.AI]) ∧
        (m, "꺼짐") ∈ AUTO_DRY_LABEL ∧
        async_select_option
          (entity_of (sample_ac None PyNone) (autodry_desc wideq_ok) ["꺼짐"; "AI건조"])
          "꺼짐" []
        = @write_outcome wideq_ok
            (entity_of (sample_ac None PyNone) (autodry_desc wideq_ok) ["꺼짐"; "AI건조"])
            (set_auto_dry_mode m) []) ∧
  async_select_option
    (entity_of (sample_ac None PyNone) (autodry_desc wideq_ok) ["꺼짐"; "AI건조"])
    "AI건조" []
  = @write_outcome wideq_ok
      (entity_of (sample_ac None PyNone) (autodry_desc wideq_ok) ["꺼짐"; "AI건조"])
      (set_auto_dry_mode ACAutoDryMode.AI) [].
Proof.
  split.
  - apply (proj1 (@autodry_option_round_trip wideq_ok (sample_ac None PyNone)
                    {| ac_vertical_step_modes := None;
                       ac_vertical_step_mode := PyNone;
                       ac_auto_dry_modes := Some [ACAutoDryMode.OFF; ACAutoDryMode.AI];
                       ac_auto_dry_mode := ACAutoDryMode.AI |}
                    (autodry_desc wideq_ok)
                    (entity_of (sample_ac None PyNone) (autodry_desc wideq_ok)
                       ["꺼짐"; "AI건조"])
                    [] "꺼짐"
                    (list_elem_of_here _ _) eq_refl eq_refl)).
    cbn [_attr_options entity_of]. left.
  - apply (proj2 (@autodry_option_round_trip wideq_ok (sample_ac None PyNone)
                    {| ac_vertical_step_modes := None;
                       ac_vertical_step_mode := PyNone;
                       ac_auto_dry_modes := Some [ACAutoDryMode.OFF; ACAutoDryMode.AI];
                       ac_auto_dry_mode := ACAutoDryMode.AI |}
                    (autodry_desc wideq_ok)
                    (entity_of (sample_ac None PyNone) (autodry_desc wideq_ok)
                       ["꺼짐"; "AI건조"])
                    [] "AI건조"
                    (list_elem_of_here _ _) eq_refl eq_refl)).
    reflexivity.
Defined.



(** ** More dict lemmas *)

Section DictLookup.
Context {K V : Type} (eqb : K → K → bool).
Hypothesis eqb_eq : ∀ a b, eqb a b = true ↔ a = b.

Lemma dict_get_app (d1 d2 : list (K * V)) (k : K) :
  dict_get eqb (d1 ++ d2) k
  = match dict_get eqb d1 k with
    | Some v => Some v
    | None => dict_get eqb d2 k
    end.
Proof.
  induction d1 as [|[k1 v1] d1 IH]; cbn [app dict_get]; [done|].
  by destruct (eqb k1 k).
Qed.

Lemma dict_get_set (d : list (K * V)) (k k' : K) (v : V) :
  dict_get eqb (dict_set eqb d k v) k'
  = if eqb k k' then Some v else dict_get eqb d k'.
Proof.
  induction d as [|[k0 v0] d IH]; cbn [dict_set dict_get]; [done|].
  destruct (eqb k0 k) eqn:Hk0; cbn [dict_get].
  - apply eqb_eq in Hk0 as ->. by destruct (eqb k k').
  - rewrite IH. destruct (eqb k0 k') eqn:Hk0'; [|done].
    apply eqb_eq in Hk0' as ->. destruct (eqb k k') eqn:Hkk'; [|done].
    apply eqb_eq in Hkk' as ->.
    by rewrite (proj2 (eqb_eq _ _) eq_refl) in Hk0.
Qed.

(** In a dict built by successive assignments the last one to a key
    wins; keys never assigned keep the value of the initial dict. *)
Lemma dict_fold_last (items d : list (K * V)) (k : K) :
  dict_get eqb (foldl (λ d kv, dict_set eqb d kv.1 kv.2) d items) k
  = match dict_get eqb (reverse items) k with
    | Some v => Some v
    | None => dict_get eqb d k
    end.
Proof.
  revert d. induction items as [|[k0 v0] items IH]; intros d; [done|].
  cbn [foldl fst snd]. rewrite IH, reverse_cons, dict_get_app, dict_get_set.
  cbn [dict_get]. destruct (dict_get eqb (reverse items) k); [done|].
  by destruct (eqb k0 k).
Qed.

Lemma dict_set_elems (d : list (K * V)) (k k' : K) (v v' : V) :
  (k', v') ∈ dict_set eqb d k v → (k', v') ∈ d ∨ (k', v') = (k, v).
Proof.
  induction d as [|[k0 v0] d IH]; cbn [dict_set].
  - intros ->%list_elem_of_singleton. by right.
  - destruct (eqb k0 k) eqn:Hk0.
    + apply eqb_eq in Hk0 as ->.
      intros [->|Hin]%elem_of_cons; [by right|]. left. by right.
    + intros [->|Hin]%elem_of_cons; [left; left|].
      destruct (IH Hin) as [?|?]; [left; by right|by right].
Qed.

Lemma dict_fold_elems (items d : list (K * V)) (k : K) (v : V) :
  (k, v) ∈ foldl (λ d kv, dict_set eqb d kv.1 kv.2) d items →
  (k, v) ∈ d ∨ (k, v) ∈ items.
Proof.
  revert d. induction items as [|[k0 v0] items IH]; intros d; cbn [foldl];
    [by left|].
  intros [Hin|Hin]%IH; [|right; by right].
  apply dict_set_elems in Hin as [?| ->]; [by left|right; left].
Qed.

Lemma dict_get_Some_elem (d : list (K * V)) (k : K) (v : V) :
  dict_get eqb d k = Some v → (k, v) ∈ d.
Proof.
  induction d as [|[k0 v0] d IH]; cbn [dict_get]; [done|].
  destruct (eqb k0 k) eqn:Hk0.
  - apply eqb_eq in Hk0 as ->. intros [= ->]. left.
  - intros Hget. right. by apply IH.
Qed.

Lemma dict_get_elem_is_Some (d : list (K * V)) (k : K) (v : V) :
  (k, v) ∈ d → is_Some (dict_get eqb d k).
Proof.
  induction d as [|[k0 v0] d IH]; cbn [dict_get].
  - intros Hin. by apply elem_of_nil in Hin.
  - intros [[= <- <-]|Hin]%elem_of_cons.
    + rewrite (proj2 (eqb_eq _ _) eq_refl). eauto.
    + destruct (eqb k0 k); [eauto|by apply IH].
Qed.

Lemma dict_get_elem_NoDup (d : list (K * V)) (k : K) (v : V) :
  NoDup d.*1 → (k, v) ∈ d → dict_get eqb d k = Some v.
Proof.
  induction d as [|[k0 v0] d IH]; cbn [dict_get fmap list_fmap].
  - intros _ Hin. by apply elem_of_nil in Hin.
  - intros [Hk0 Hnd]%NoDup_cons [[= <- <-]|Hin]%elem_of_cons.
    + by rewrite (proj2 (eqb_eq _ _) eq_refl).
    + destruct (eqb k0 k) eqn:Hk; [|by apply IH].
      apply eqb_eq in Hk as ->. destruct Hk0.
      apply list_elem_of_fmap. by exists (k, v).
Qed.

(** Looking a key up in the reversed items of a dict gives the same
    value, as its keys are distinct. *)
Lemma dict_get_reverse (d : list (K * V)) (k : K) :
  NoDup d.*1 → dict_get eqb (reverse d) k = dict_get eqb d k.
Proof.
  intros Hnd.
  destruct (dict_get eqb (reverse d) k) as [v|] eqn:Hrev.
  - apply dict_get_Some_elem in Hrev. rewrite elem_of_reverse in Hrev.
    symmetry. by apply dict_get_elem_NoDup.
  - destruct (dict_get eqb d k) as [v|] eqn:Hfwd; [|done].
    apply dict_get_Some_elem in Hfwd.
    assert ((k, v) ∈ reverse d) as Hel by by rewrite elem_of_reverse.
    apply dict_get_elem_is_Some in Hel as [v' Hv']. congruence.
Qed.

End DictLookup.

Lemma dict_get_const_items {V} (l : list DeviceType) (w : V) (k : DeviceType) :
  dict_get DeviceType_eqb (map (λ t, (t, w)) l) k
  = if bool_decide (k ∈ l) then Some w else None.
Proof.
  destruct (dict_get DeviceType_eqb (map (λ t, (t, w)) l) k) as [v|] eqn:Hget.
  - apply (dict_get_Some_elem _ DeviceType_eqb_eq) in Hget.
    apply list_elem_of_fmap in Hget as (t & [= -> ->] & Ht).
    by rewrite bool_decide_eq_true_2.
  - destruct (bool_decide_reflect (k ∈ l)) as [Hin|]; [|done].
    assert ((k, w) ∈ map (λ t, (t, w)) l) as Hel.
    { apply list_elem_of_fmap. by exists k. }
    apply (dict_get_elem_is_Some _ DeviceType_eqb_eq) in Hel as [v' Hv'].
    congruence.
Qed.

(** ** The registry *)

(** X8: what the registry holds for a device type: the wash descriptors
    for every type listed in [WM_DEVICE_TYPES] (also when that type is
    the microwave or the AC, whose own entry is overwritten), otherwise
    the microwave descriptors for the microwave, the vertical-wind-step
    descriptor for the AC, and nothing for any other type. *)
Theorem SELECT_ENTITIES_lookup `{Wideq} (dev_type : DeviceType) :
  dict_get DeviceType_eqb SELECT_ENTITIES dev_type
  = if bool_decide (dev_type ∈ WM_DEVICE_TYPES) then Some WASH_DEV_SELECT
    else match dev_type with
         | MICROWAVE => Some MICROWAVE_SELECT
         | AC => Some AC_VSTEP_SELECT
         | OtherDeviceType _ => None
         end.
Proof.
  unfold SELECT_ENTITIES. unfold dict_of_items at 1.
  rewrite (dict_fold_last _ DeviceType_eqb_eq), reverse_app, dict_get_app.
  rewrite (dict_get_reverse _ DeviceType_eqb_eq);
    [|apply (dict_fold_NoDup _ DeviceType_eqb_eq), NoDup_nil_2].
  unfold dict_of_items.
  rewrite (dict_fold_last _ DeviceType_eqb_eq). cbn [dict_get].
  rewrite <- fmap_reverse.
  change (dict_get DeviceType_eqb
            ((λ t, (t, WASH_DEV_SELECT)) <$> reverse WM_DEVICE_TYPES) dev_type)
    with (dict_get DeviceType_eqb
            (map (λ t, (t, WASH_DEV_SELECT)) (reverse WM_DEVICE_TYPES)) dev_type).
  rewrite dict_get_const_items.
  destruct (bool_decide_reflect (dev_type ∈ reverse WM_DEVICE_TYPES)) as [Hin|Hnin].
  - rewrite elem_of_reverse in Hin. by rewrite bool_decide_eq_true_2.
  - rewrite bool_decide_eq_false_2 by by rewrite <- elem_of_reverse.
    by destruct dev_type.
Qed.

(** ** Discovery *)

Lemma discovered_pairs_elem `{Wideq}
    (lge_devices : list (DeviceType * list LGEDevice.t))
    (api : LGEDevice.t) (desc : ThinQSelectEntityDescription) :
  (api, desc) ∈ discovered_pairs lge_devices ↔ discoverable lge_devices api desc.
Proof.
  unfold discovered_pairs, discoverable. rewrite list_elem_of_bind. split.
  - intros ([dev_type select_descs] & Hin & Hreg).
    apply list_elem_of_bind in Hin as (select_desc & Hin & Hdesc).
    apply list_elem_of_bind in Hin as (lge_device & Hin & Hdev).
    destruct (_select_exist lge_device select_desc) eqn:Hexist;
      [|by apply elem_of_nil in Hin].
    apply list_elem_of_singleton in Hin as [= -> ->].
    destruct (dict_get DeviceType_eqb lge_devices dev_type) as [devices|] eqn:Hget;
      [|by apply elem_of_nil in Hdev].
    by exists dev_type, select_descs, devices.
  - intros (dev_type & select_descs & devices & Hreg & Hdesc & Hget & Hdev & Hexist).
    exists (dev_type, select_descs). split; [|done].
    apply list_elem_of_bind. exists desc. split; [|done].
    apply list_elem_of_bind. exists api. rewrite Hget. split; [|done].
    rewrite Hexist. left.
Qed.


Lemma discover_unfold `{Wideq}
    (lge_devices : list (DeviceType * list LGEDevice.t)) :
  lge_devices ≠ [] →
  _async_discover_device lge_devices
  = match mapM (λ p, __init__ p.1 p.2) (discovered_pairs lge_devices) with
    | Ok lge_select => Ok (Some lge_select)
    | Raise e => Raise e
    end.
Proof. by destruct lge_devices. Qed.

Lemma discover_batch `{Wideq}
    (lge_devices : list (DeviceType * list LGEDevice.t)) (batch : list LGESelect) :
  _async_discover_device lge_devices = Ok (Some batch) →
  Forall2 (λ p self, __init__ p.1 p.2 = Ok self)
    (discovered_pairs lge_devices) batch.
Proof.
  destruct lge_devices as [|d ds]; [done|].
  rewrite discover_unfold by done.
  destruct (mapM _ _) as [k|e] eqn:Hm; [|done].
  intros [= <-]. by apply mapM_result_Ok.
Qed.

(** X9: when discovery registers a batch, the batch holds exactly the
    entities constructed for the pairs of a listed device and a
    descriptor registered for its type that pass the existence
    predicate. *)
Theorem discovery_sound_complete `{Wideq}
    (lge_devices : list (DeviceType * list LGEDevice.t)) (batch : list LGESelect) :
  _async_discover_device lge_devices = Ok (Some batch) →
  ∀ self, self ∈ batch ↔
          ∃ api desc, discoverable lge_devices api desc ∧
                      __init__ api desc = Ok self.
Proof.
  intros Hall%discover_batch self. split.
  - intros [i Hi]%list_elem_of_lookup.
    destruct (Forall2_lookup_r _ _ _ _ _ Hall Hi) as ([api desc] & Hp & Hinit).
    exists api, desc. split; [|done].
    apply discovered_pairs_elem. by eapply list_elem_of_lookup_2.
  - intros (api & desc & [i Hi]%discovered_pairs_elem%list_elem_of_lookup & Hinit).
    destruct (Forall2_lookup_l _ _ _ _ _ Hall Hi) as (self' & Hself & Hinit').
    cbn [fst snd] in Hinit'. assert (self' = self) as -> by congruence.
    by eapply list_elem_of_lookup_2.
Qed.


(** X11: a non-empty device dict without any discoverable pair (no
    listed type is registered, or the existence predicate rejects every
    pair) still reaches [async_add_entities], with an empty batch. *)
Theorem discovery_empty_batch `{Wideq}
    (lge_devices : list (DeviceType * list LGEDevice.t)) :
  lge_devices ≠ [] →
  (∀ api desc, ¬ discoverable lge_devices api desc) →
  _async_discover_device lge_devices = Ok (Some []).
Proof.
  intros Hne Hnone. rewrite discover_unfold by done.
  assert (discovered_pairs lge_devices = []) as ->; [|done].
  destruct (discovered_pairs lge_devices) as [|[api desc] l] eqn:Hp; [done|].
  destruct (Hnone api desc). apply discovered_pairs_elem. rewrite Hp. left.
Qed.

Lemma discovery_sound_complete_witness :
  entity_of (sample_ac None PyNone) (vstep_desc wideq_ok) []
  ∈ [entity_of (sample_ac None PyNone) (vstep_desc wideq_ok) []] ↔
  ∃ api desc, @discoverable wideq_ok [(AC, [sample_ac None PyNone])] api desc ∧
              __init__ api desc
              = Ok (entity_of (sample_ac None PyNone) (vstep_desc wideq_ok) []).
Proof.
  apply (@discovery_sound_complete wideq_ok [(AC, [sample_ac None PyNone])]
           [entity_of (sample_ac None PyNone) (vstep_desc wideq_ok) []]).
  reflexivity.
Defined.


Lemma discovery_empty_batch_witness :
  @_async_discover_device wideq_ok sample_fridge_devices = Ok (Some []).
Proof.
  apply (@discovery_empty_batch wideq_ok sample_fridge_devices).
  - discriminate.
  - intros api desc (dev_type & select_descs & devices & Hreg & _ & Hget & _).
    unfold sample_fridge_devices in Hget. cbn [dict_get] in Hget.
    destruct (DeviceType_eqb (OtherDeviceType "REFRIGERATOR") dev_type) eqn:Hdt;
      [|discriminate Hget].
    apply DeviceType_eqb_eq in Hdt as <-.
    apply (dict_get_elem_NoDup _ DeviceType_eqb_eq _ _ _
             (@SELECT_ENTITIES_NoDup wideq_ok)) in Hreg.
    discriminate Hreg.
Defined.

Lemma registry_values `{Wideq} (dev_type : DeviceType)
    (select_descs : list ThinQSelectEntityDescription) :
  (dev_type, select_descs) ∈ SELECT_ENTITIES →
  select_descs = MICROWAVE_SELECT ∨
  select_descs = AC_VSTEP_SELECT ∨
  select_descs = WASH_DEV_SELECT.
Proof.
  unfold SELECT_ENTITIES, dict_of_items at 1.
  intros [Hin|Hin]%(dict_fold_elems _ DeviceType_eqb_eq).
  { by apply elem_of_nil in Hin. }
  apply elem_of_app in Hin as [Hin|Hin].
  - apply elem_of_cons in Hin as [[= _ ->]|Hin]; [by left|].
    apply list_elem_of_singleton in Hin as [= _ ->]. right. by left.
  - unfold dict_of_items in Hin.
    apply (dict_fold_elems _ DeviceType_eqb_eq) in Hin as [Hin|Hin].
    { by apply elem_of_nil in Hin. }
    apply list_elem_of_fmap in Hin as (t & [= _ ->] & _). right. by right.
Qed.

Lemma registered_not_autodry `{Wideq} (desc : ThinQSelectEntityDescription) :
  registered desc → name desc ≠ "Auto Dry".
Proof.
  intros (dev_type & select_descs & Hreg & Hdesc).
  destruct (registry_values _ _ Hreg) as [->|[->| ->]];
    repeat (apply elem_of_cons in Hdesc as [->|Hdesc]; [discriminate|]);
    by apply elem_of_nil in Hdesc.
Qed.

(** X12: the auto-dry descriptor is defined but not registered: no
    registered descriptor is the one of [AC_AUTODRY_SELECT], so no entity
    of a discovery batch carries it, whatever devices are listed. *)
Theorem autodry_never_discovered `{Wideq} :
  (∀ desc, registered desc → desc ∉ AC_AUTODRY_SELECT) ∧
  (∀ lge_devices batch self,
     _async_discover_device lge_devices = Ok (Some batch) →
     self ∈ batch →
     (entity_description self ∉ AC_AUTODRY_SELECT) ∧
     name (entity_description self) ≠ "Auto Dry").
Proof.
  assert (Hmem : ∀ desc, name desc ≠ "Auto Dry" → desc ∉ AC_AUTODRY_SELECT).
  { intros desc Hname ->%list_elem_of_singleton. by apply Hname. }
  split.
  - intros desc Hreg. by apply Hmem, registered_not_autodry.
  - intros lge_devices batch self Hall%discover_batch [i Hi]%list_elem_of_lookup.
    destruct (Forall2_lookup_r _ _ _ _ _ Hall Hi) as ([api desc] & Hp & Hinit).
    cbn [fst snd] in Hinit.
    destruct (init_fields _ _ _ Hinit) as (_ & -> & _).
    assert (name desc ≠ "Auto Dry") as Hname.
    { apply registered_not_autodry.
      apply list_elem_of_lookup_2, discovered_pairs_elem in Hp
        as (dev_type & select_descs & _ & Hreg & Hdesc & _).
      by exists dev_type, select_descs. }
    split; [by apply Hmem|done].
Qed.

Lemma autodry_never_discovered_witness :
  (entity_description (entity_of (sample_ac None PyNone) (vstep_desc wideq_ok) [])
   ∉ @AC_AUTODRY_SELECT wideq_ok) ∧
  name (entity_description
          (entity_of (sample_ac None PyNone) (vstep_desc wideq_ok) []))
  ≠ "Auto Dry".
Proof.
  apply (proj2 (@autodry_never_discovered wideq_ok)
           [(AC, [sample_ac None PyNone])]
           [entity_of (sample_ac None PyNone) (vstep_desc wideq_ok) []]).
  - reflexivity.
  - left.
Defined.

(** ** Unique identifiers on one device and for one key *)

Lemma string_app_inv_tail (a b c : string) : a +:+ c = b +:+ c → a = b.
Proof.
  intros Heq%(f_equal list_ascii_of_string).
  rewrite !list_ascii_of_string_app in Heq.
  by apply app_inv_tail, list_ascii_of_string_inj in Heq.
Qed.

(** X13: without any condition on the strings, two entities of the
    same device have the same unique identifier exactly when their keys
    are equal, and two entities with the same key exactly when their
    devices' [unique_id]s are equal. *)
Theorem unique_id_separates (api1 api2 : LGEDevice.t)
    (d1 d2 : ThinQSelectEntityDescription) (e1 e2 : LGESelect) :
  __init__ api1 d1 = Ok e1 →
  __init__ api2 d2 = Ok e2 →
  (LGEDevice.unique_id api1 = LGEDevice.unique_id api2 →
   (_attr_unique_id e1 = _attr_unique_id e2 ↔ key d1 = key d2)) ∧
  (key d1 = key d2 →
   (_attr_unique_id e1 = _attr_unique_id e2 ↔
    LGEDevice.unique_id api1 = LGEDevice.unique_id api2)).
Proof.
  intros (_ & _ & -> & _)%init_fields (_ & _ & -> & _)%init_fields. split.
  - intros ->. split; [|by intros ->]. intros Heq.
    apply (inj (String.append _)) in Heq. apply (inj (String.append _)) in Heq.
    by apply string_app_inv_tail in Heq.
  - intros ->. split; [|by intros ->]. intros Heq.
    by apply (string_app_inv_tail _ _ ("-" +:+ key d2 +:+ "-select")) in Heq.
Qed.

Lemma unique_id_separates_witness :
  (_attr_unique_id (entity_of (device_with_id "AC:0f1e-77") (keyed_desc "mode") [])
   = _attr_unique_id (entity_of (device_with_id "AC:0f1e-77") (keyed_desc "77-mode") []) ↔
   key (keyed_desc "mode") = key (keyed_desc "77-mode")) ∧
  (_attr_unique_id (entity_of (device_with_id "AC:0f1e-77") (keyed_desc "mode") [])
   = _attr_unique_id (entity_of (device_with_id "AC:0f1e") (keyed_desc "mode") []) ↔
   LGEDevice.unique_id (device_with_id "AC:0f1e-77")
   = LGEDevice.unique_id (device_with_id "AC:0f1e")).
Proof.
  split.
  - apply (proj1 (unique_id_separates
                    (device_with_id "AC:0f1e-77") (device_with_id "AC:0f1e-77")
                    (keyed_desc "mode") (keyed_desc "77-mode")
                    (entity_of (device_with_id "AC:0f1e-77") (keyed_desc "mode") [])
                    (entity_of (device_with_id "AC:0f1e-77") (keyed_desc "77-mode") [])
                    eq_refl eq_refl)).
    reflexivity.
  - apply (proj2 (unique_id_separates
                    (device_with_id "AC:0f1e-77") (device_with_id "AC:0f1e")
                    (keyed_desc "mode") (keyed_desc "mode")
                    (entity_of (device_with_id "AC:0f1e-77") (keyed_desc "mode") [])
                    (entity_of (device_with_id "AC:0f1e") (keyed_desc "mode") [])
                    eq_refl eq_refl)).
    reflexivity.
Defined.

(** ** The events of an option change *)

Lemma write_outcome_cases `{Wideq} (self : LGESelect) (c : DeviceCall)
    (trace : list Event) (r : result unit) (self' : LGESelect)
    (trace' : list Event) :
  write_outcome self c trace = (r, self', trace') →
  (∃ e, r = Raise e ∧ trace' = (trace ++ [EvCall c])%list ∧
        remote c (_api self) = (Raise e, _api self')) ∨
  (r = Ok () ∧ trace' = (trace ++ [EvCall c; EvSetUpdated])%list ∧
   remote c (_api self) = (Ok (), _api self')).
Proof.
  unfold write_outcome.
  destruct (remote c (_api self)) as [[[]|e] api'] eqn:Hr; intros [= <- <- <-].
  - by right.
  - left. by exists e.
Qed.

(** X14: an option change on an entity of any descriptor of this module
    does one of three things: it raises before anything is sent (trace
    and entity untouched), it sends exactly one device write that fails
    (no refresh signal), or it sends exactly one device write that
    succeeds, followed by exactly one refresh signal. *)
Theorem select_option_events `{Wideq} (self : LGESelect) (option : string)
    (trace : list Event) (r : result unit) (self' : LGESelect)
    (trace' : list Event) :
  entity_description self
  ∈ (WASH_DEV_SELECT ++ MICROWAVE_SELECT ++ AC_VSTEP_SELECT ++ AC_AUTODRY_SELECT)%list →
  async_select_option self option trace = (r, self', trace') →
  (∃ e, r = Raise e ∧ self' = self ∧ trace' = trace) ∨
  (∃ c e, r = Raise e ∧ trace' = (trace ++ [EvCall c])%list ∧
          remote c (_api self) = (Raise e, _api self')) ∨
  (∃ c, r = Ok () ∧ trace' = (trace ++ [EvCall c; EvSetUpdated])%list ∧
        remote c (_api self) = (Ok (), _api self')).
Proof.
  intros Hd Hsel.
  assert (Hcall : ∀ c, async_select_option self option trace
                       = write_outcome self c trace →
            (∃ c e, r = Raise e ∧ trace' = (trace ++ [EvCall c])%list ∧
                    remote c (_api self) = (Raise e, _api self')) ∨
            (∃ c, r = Ok () ∧ trace' = (trace ++ [EvCall c; EvSetUpdated])%list ∧
                  remote c (_api self) = (Ok (), _api self'))).
  { intros c Hc. rewrite Hsel in Hc. symmetry in Hc.
    apply write_outcome_cases in Hc as [(e & ? & ? & ?)|(? & ? & ?)].
    - left. by exists c, e.
    - right. by exists c. }
  assert (Hraise : ∀ e, async_select_option self option trace = (Raise e, self, trace) →
            ∃ e, r = Raise e ∧ self' = self ∧ trace' = trace).
  { intros e He. rewrite Hsel in He. injection He as -> -> ->. by exists e. }
  cbn [app] in Hd.
  apply elem_of_cons in Hd as [Hd|Hd].
  { right. apply (Hcall (select_start_course option)), select_via_call.
    intros w. by rewrite Hd. }
  apply elem_of_cons in Hd as [Hd|Hd].
  { right. apply (Hcall (set_display_scroll_speed option)), select_via_call.
    intros w. by rewrite Hd. }
  apply elem_of_cons in Hd as [Hd|Hd].
  { right. apply (Hcall (set_defrost_weight_unit option)), select_via_call.
    intros w. by rewrite Hd. }
  apply elem_of_cons in Hd as [Hd|Hd].
  { destruct (py_int (PyStr option)) as [n|e] eqn:Hint.
    - right. apply (Hcall (set_vertical_step_mode n)), select_via_call.
      intros w. rewrite Hd. cbn [select_option_fn].
      by rewrite vstep_select_option_fn_unfold, Hint.
    - left. apply (Hraise e), select_via_raise.
      intros w. rewrite Hd. cbn [select_option_fn].
      by rewrite vstep_select_option_fn_unfold, Hint. }
  apply list_elem_of_singleton in Hd.
  destruct (dict_item (λ a b : string, bool_decide (a = b)) AUTO_DRY_FROM_LABEL option)
    as [m|e] eqn:Hitem.
  - right. apply (Hcall (set_auto_dry_mode m)), select_via_call.
    intros w. rewrite Hd. cbn [select_option_fn].
    by rewrite autodry_select_option_fn_unfold, Hitem.
  - left. apply (Hraise e), select_via_raise.
    intros w. rewrite Hd. cbn [select_option_fn].
    by rewrite autodry_select_option_fn_unfold, Hitem.
Qed.

Lemma select_option_events_witness :
  (∃ e, (Raise (DeviceError "offline") : result unit) = Raise e ∧
        with_api (entity_of (sample_washer true) (wash_desc wideq_failing) [])
          (sample_washer true)
        = entity_of (sample_washer true) (wash_desc wideq_failing) [] ∧
        [EvCall (select_start_course "Wool")] = []) ∨
  (∃ c e, (Raise (DeviceError "offline") : result unit) = Raise e ∧
          [EvCall (select_start_course "Wool")] = ([] ++ [EvCall c])%list ∧
          @remote wideq_failing c
            (_api (entity_of (sample_washer true) (wash_desc wideq_failing) []))
          = (Raise e,
             _api (with_api (entity_of (sample_washer true) (wash_desc wideq_failing) [])
                     (sample_washer true)))) ∨
  (∃ c, (Raise (DeviceError "offline") : result unit) = Ok () ∧
        [EvCall (select_start_course "Wool")] = ([] ++ [EvCall c; EvSetUpdated])%list ∧
        @remote wideq_failing c
          (_api (entity_of (sample_washer true) (wash_desc wideq_failing) []))
        = (Ok (),
           _api (with_api (entity_of (sample_washer true) (wash_desc wideq_failing) [])
                   (sample_washer true)))).
Proof.
  apply (@select_option_events wideq_failing
           (entity_of (sample_washer true) (wash_desc wideq_failing) [])
           "Wool" []).
  - left.
  - reflexivity.
Defined.

(** ** What the entity shows after a successful vertical-step write *)

(** X15: after an offered vertical-step option has been selected
    successfully and the device reports the step that was written, the
    current option is the selected string when the step lies in 1..6, and
    is absent otherwise: an offered step outside 1..6 can be selected but
    is never shown as current. *)
Theorem vstep_current_after_select `{Wideq} (api : LGEDevice.t)
    (ac ac' : AirConditionerDevice) (desc : ThinQSelectEntityDescription)
    (self self' : LGESelect) (trace trace' : list Event) (s : string) :
  desc ∈ AC_VSTEP_SELECT →
  LGEDevice.device api = AirConditioner ac →
  __init__ api desc = Ok self →
  s ∈ _attr_options self →
  async_select_option self s trace = (Ok (), self', trace') →
  LGEDevice.device (_api self') = AirConditioner ac' →
  (∀ n, py_int (PyStr s) = Ok n → ac_vertical_step_mode ac' = PyInt n) →
  ∃ n, s = py_str (PyInt n) ∧
       current_option self'
       = Ok (if decide (1 ≤ n ≤ 6)%Z then Some s else None).
Proof.
  intros Hdesc Hdev Hinit Hs Hsel Hdev' Hreport.
  destruct (init_fields _ _ _ Hinit) as (Hapi & Hd & _ & Hopts).
  apply list_elem_of_singleton in Hdesc. subst desc. cbn [options_fn] in Hopts.
  rewrite (vstep_options_fn_ac api ac Hdev) in Hopts.
  apply mapM_result_Ok in Hopts.
  destruct (proj1 (list_elem_of_lookup _ _) Hs) as [i Hi].
  destruct (Forall2_lookup_r _ _ _ _ _ Hopts Hi) as (m & _ & Hm).
  destruct (vstep_option_of_mode m (Ok s) Hm) as (n & _ & ->).
  exists n. split; [done|].
  specialize (Hreport n (int_str_round_trip_helper n)).
  assert (entity_description self' = entity_description self) as Hd'.
  { unfold async_select_option in Hsel.
    destruct (select_option_body self _ _) as [r w].
    by injection Hsel as _ <- _. }
  unfold current_option. rewrite Hd', Hd. cbn [value_fn].
  rewrite (vstep_value_fn_ac _ ac' Hdev'), Hreport.
  cbn [isinstance_int int_value andb py_str].
  destruct (Z.leb_spec 1 n), (Z.leb_spec n 6); cbn [andb];
    destruct (decide (1 ≤ n ≤ 6)%Z); try done; lia.
Qed.

Lemma vstep_current_after_select_witness :
  ∃ n, "5" = py_str (PyInt n) ∧
       current_option
         (with_api
            (entity_of (sample_ac (Some one_to_six) (PyInt 3)) (vstep_desc wideq_ok)
               ["1"; "2"; "3"; "4"; "5"; "6"])
            (sample_ac (Some one_to_six) (PyInt 5)))
       = Ok (if decide (1 ≤ n ≤ 6)%Z then Some "5" else None).
Proof.
  apply (@vstep_current_after_select wideq_ok
           (sample_ac (Some one_to_six) (PyInt 3))
           {| ac_vertical_step_modes := Some one_to_six;
              ac_vertical_step_mode := PyInt 3;
              ac_auto_dry_modes := Some [ACAutoDryMode.OFF; ACAutoDryMode.AI];
              ac_auto_dry_mode := ACAutoDryMode.AI |}
           {| ac_vertical_step_modes := Some one_to_six;
              ac_vertical_step_mode := PyInt 5;
              ac_auto_dry_modes := Some [ACAutoDryMode.OFF; ACAutoDryMode.AI];
              ac_auto_dry_mode := ACAutoDryMode.AI |}
           (vstep_desc wideq_ok)
           (entity_of (sample_ac (Some one_to_six) (PyInt 3)) (vstep_desc wideq_ok)
              ["1"; "2"; "3"; "4"; "5"; "6"])
           _ [] [EvCall (set_vertical_step_mode 5); EvSetUpdated]).
  - left.
  - reflexivity.
  - vm_compute. reflexivity.
  - cbn [_attr_options entity_of]. do 4 right. left.
  - reflexivity.
  - reflexivity.
  - intros n [= <-]. reflexivity.
Defined.

(** ** Availability of the AC entities *)

Lemma Forall2_nil_iff {A B} (P : A → B → Prop) (l : list A) (k : list B) :
  Forall2 P l k → (k = [] ↔ l = []).
Proof. intros Hall. destruct Hall; split; done. Qed.

Lemma list_truthy_or_empty {A} (x : option (list A)) :
  list_truthy x = negb (bool_decide (or_empty x = [])).
Proof. by destruct x as [[|a l]|]. Qed.

(** X16: an AC entity (vertical wind step or auto dry), in the state of
    the device it was constructed from, is available exactly when the
    device is available and the entity offers at least one option. *)
Theorem ac_entity_available_iff_options `{Wideq} (api : LGEDevice.t)
    (ac : AirConditionerDevice) (desc : ThinQSelectEntityDescription)
    (self : LGESelect) :
  desc ∈ (AC_VSTEP_SELECT ++ AC_AUTODRY_SELECT)%list →
  LGEDevice.device api = AirConditioner ac →
  __init__ api desc = Ok self →
  available self
  = Ok (LGEDevice.available api && negb (bool_decide (_attr_options self = []))).
Proof.
  intros Hdesc Hdev (Hapi & Hd & _ & Hopts)%init_fields.
  unfold available. rewrite Hd, Hapi. cbn [app] in Hdesc.
  apply elem_of_cons in Hdesc as [Hdesc|Hdesc%list_elem_of_singleton];
    subst desc; cbn [available_fn options_fn] in *.
  - rewrite (vstep_options_fn_ac api ac Hdev) in Hopts.
    apply mapM_result_Ok, Forall2_nil_iff in Hopts.
    unfold vstep_available_fn, vertical_step_modes. rewrite Hdev.
    cbn [mbind result_bind mret result_ret]. rewrite list_truthy_or_empty.
    do 3 f_equal. apply bool_decide_ext. by symmetry.
  - rewrite (autodry_options_fn_ac api ac Hdev) in Hopts.
    apply mapM_result_Ok, Forall2_nil_iff in Hopts.
    unfold autodry_available_fn, auto_dry_modes. rewrite Hdev.
    cbn [mbind result_bind mret result_ret]. rewrite list_truthy_or_empty.
    do 3 f_equal. apply bool_decide_ext. by symmetry.
Qed.

Lemma ac_entity_available_iff_options_witness :
  available (entity_of (sample_ac (Some []) PyNone) (vstep_desc wideq_ok) [])
  = Ok (LGEDevice.available (sample_ac (Some []) PyNone)
        && negb (bool_decide
                   (_attr_options
                      (entity_of (sample_ac (Some []) PyNone) (vstep_desc wideq_ok) [])
                    = []))).
Proof.
  apply (@ac_entity_available_iff_options wideq_ok (sample_ac (Some []) PyNone)
           {| ac_vertical_step_modes := Some [];
              ac_vertical_step_mode := PyNone;
              ac_auto_dry_modes := Some [ACAutoDryMode.OFF; ACAutoDryMode.AI];
              ac_auto_dry_mode := ACAutoDryMode.AI |}
           (vstep_desc wideq_ok)).
  - left.
  - reflexivity.
  - reflexivity.
Defined.
